(** * BlackRoad crypto tracker: the ledger and valuation engine

    A shallow embedding of [src/crypto_tracker.py] (class [CryptoTracker])
    and the properties of its operations.

    - Python floats are IEEE 754 binary64 numbers: Rocq's primitive floats.
    - The SQLite database is a record of three tables, each a list of rows
      in insertion (rowid) order.  Every operation runs inside
      [with self._conn() as conn], which commits on success and rolls back
      when an exception escapes: an operation maps a database to either a
      new database and a value, or to an exception (and then the database
      is the old one).
    - [datetime.now().isoformat()] is an explicit argument [now].
    - The builtins [str.upper], [round], [sum] and [format] are a
      parameter ([Py.Builtins]); [Ref.builtins] implements them, so that
      every definition can be run. *)

From Stdlib Require Import ZArith List String Ascii Bool Floats Lia.
From Stdlib Require Import Sorting.Sorted Sorting.Permutation DecimalString.
From Stdlib Require Import NArith DecimalFacts DecimalPos DecimalZ DecimalN.
Import ListNotations.

Set Implicit Arguments.

(** ** Python values and builtins *)

Module Py.

(** The exceptions the embedded code can raise. *)
Inductive exn : Set :=
| IntegrityError      (* sqlite3: a NOT NULL constraint failed *)
| ZeroDivisionError   (* float division by zero *)
| TypeError           (* arithmetic on None *)
| OSError.            (* open: the file cannot be opened for writing *)

Inductive result (A : Type) : Type :=
| Ok (a : A)
| Raise (e : exn).
Arguments Ok {A} a.
Arguments Raise {A} e.

Definition bind {A B} (m : result A) (f : A -> result B) : result B :=
  match m with
  | Ok a => f a
  | Raise e => Raise e
  end.

(** [for x in xs: ...] over a body that may raise, collecting results. *)
Fixpoint mapM {A B} (f : A -> result B) (xs : list A) : result (list B) :=
  match xs with
  | [] => Ok []
  | x :: xs' =>
      bind (f x) (fun y => bind (mapM f xs') (fun ys => Ok (y :: ys)))
  end.

(** [x / y] on floats: Python raises where IEEE would return inf or nan. *)
Definition truediv (x y : float) : result float :=
  if (y =? 0)%float then Raise ZeroDivisionError else Ok (x / y)%float.

(** [max(a, b)]: the first argument is kept unless the second is
    strictly greater. *)
Definition max (a b : float) : float :=
  if (a <? b)%float then b else a.

(** [bool(x)] of a float, as in [if total_cost]. *)
Definition truthy (x : float) : bool := negb (x =? 0)%float.

(** [a * b] where an operand read from a row may be [None]. *)
Definition mul (a b : option float) : result float :=
  match a, b with
  | Some x, Some y => Ok (x * y)%float
  | _, _ => Raise TypeError
  end.

(** [if not s: s = default], the dataclasses' [__post_init__]. *)
Definition or_default (s default : string) : string :=
  if String.eqb s EmptyString then default else s.

(** The builtins of the Python runtime that the module calls and that
    are not float arithmetic.  They are a parameter of the development:
    every theorem below holds for any implementation of them. *)
Class Builtins : Type := {
  (** [s.upper()] *)
  upper : string -> string;
  (** [round(x, ndigits)]; zero rounds to zero *)
  round : float -> Z -> float;
  (** [sum(xs)] of a list of floats; the sum of nothing is [0] *)
  sum : list float -> float;
  (** [format(x, spec)], the [f"{x:spec}"] of an f-string *)
  format : float -> string -> string;
  round_zero : forall ndigits, round 0%float ndigits = 0%float;
  sum_nil : sum [] = 0%float
}.

(** The text of a float: [float.__repr__], which [json.dumps] writes,
    and [float(s)], which [json.loads] reads a number with.  They are a
    parameter like the builtins. *)
Class FloatText : Type := {
  repr : float -> string;
  float_of_string : string -> float
}.

(** The file system, as far as the module meets it: whether, at the
    time [now], [open(path, "w")] returns a file.  It is a parameter
    like the builtins. *)
Class Files : Type := {
  writable : string -> string -> bool
}.

End Py.

Import Py.
Notation "x <- m ;; k" := (Py.bind m (fun x => k))
  (at level 61, m at next level, right associativity).

Open Scope string_scope.
Open Scope float_scope.

(** ** SQLite values

    A REAL cell holds a float or NULL.  Binding a Python float stores NaN
    as NULL, and a REAL-affinity column keeps a float that is a whole
    number as an integer, so that a negative zero is read back as [0.0]. *)

Module Sql.

(** What is read back of a number stored in a REAL column. *)
Definition stored (x : float) : float := if x =? 0 then 0 else x.

Definition real (x : float) : option float :=
  if is_nan x then None else Some (stored x).

(** A column declared [REAL NOT NULL]. *)
Definition real_not_null (x : float) : result float :=
  match real x with
  | Some v => Ok v
  | None => Raise IntegrityError
  end.

(** [a * b] in an SQL expression: NULL is absorbing, and a NaN result
    is NULL. *)
Definition mul (a b : option float) : option float :=
  match a, b with
  | Some x, Some y => if is_nan (x * y) then None else Some (x * y)
  | _, _ => None
  end.

(** [a > 0] as a WHERE condition: NULL is not true. *)
Definition gt0 (a : option float) : bool :=
  match a with
  | Some x => 0 <? x
  | None => false
  end.

(** The order ORDER BY sorts in: NULL before every number. *)
Definition le (a b : option float) : bool :=
  match a, b with
  | None, _ => true
  | Some _, None => false
  | Some x, Some y => x <=? y
  end.

(** A cell that holds a number or NULL, never a NaN. *)
Definition wf (a : option float) : Prop :=
  match a with
  | Some x => is_nan x = false
  | None => True
  end.

End Sql.

(** ** Data model *)

(** The dataclasses.  [make] is the constructor call of the source with
    the defaults of the class and its [__post_init__]. *)

Module Holding.
Record t : Type := mk {
  symbol : string;
  name : string;
  total_qty : float;
  avg_cost : float;
  current_price : float;
  created_at : string;
  id : option Z
}.

(** [Holding(symbol=symbol, name=name)] *)
Definition make (now : string) (symbol name : string) : t :=
  {| symbol := symbol; name := name;
     total_qty := 0; avg_cost := 0; current_price := 0;
     created_at := Py.or_default "" now; id := None |}.
End Holding.

Module Transaction.
Record t : Type := mk {
  symbol : string;
  tx_type : string;     (* buy | sell *)
  quantity : float;
  price_usd : float;
  fee_usd : float;
  exchange : string;
  tx_date : string;
  id : option Z
}.

(** [Transaction(symbol=.., tx_type=.., quantity=.., price_usd=..,
    fee_usd=.., exchange=..)] *)
Definition make (now : string) (symbol tx_type : string)
    (quantity price_usd fee_usd : float) (exchange : string) : t :=
  {| symbol := symbol; tx_type := tx_type; quantity := quantity;
     price_usd := price_usd; fee_usd := fee_usd; exchange := exchange;
     tx_date := Py.or_default "" now; id := None |}.
End Transaction.

Module PriceRecord.
Record t : Type := mk {
  symbol : string;
  price_usd : float;
  source : string;
  recorded_at : string;
  id : option Z
}.

(** [PriceRecord(symbol=.., price_usd=.., source=..)] *)
Definition make (now : string) (symbol : string) (price_usd : float)
    (source : string) : t :=
  {| symbol := symbol; price_usd := price_usd; source := source;
     recorded_at := Py.or_default "" now; id := None |}.
End PriceRecord.

(** The rows of the three tables of [_init_db].  A column declared
    [REAL NOT NULL] is a float, a nullable one an [option float]. *)

Module HoldingRow.
Record t : Type := mk {
  id : Z;
  symbol : string;
  name : string;
  total_qty : option float;
  avg_cost : option float;
  current_price : option float;
  created_at : string
}.
End HoldingRow.

Module TransactionRow.
Record t : Type := mk {
  id : Z;
  symbol : string;
  tx_type : string;
  quantity : float;
  price_usd : float;
  fee_usd : option float;
  exchange : string;
  tx_date : string
}.
End TransactionRow.

Module PriceRow.
Record t : Type := mk {
  id : Z;
  symbol : string;
  price_usd : float;
  source : string;
  recorded_at : string
}.
End PriceRow.

(** The database file.  Each table is listed in rowid order; the [seq_]
    fields are the AUTOINCREMENT counters of [sqlite_sequence]. *)
Record Db : Type := mkDb {
  holdings : list HoldingRow.t;
  transactions : list TransactionRow.t;
  prices : list PriceRow.t;
  seq_holdings : Z;
  seq_transactions : Z;
  seq_prices : Z
}.

(** The database [_init_db] creates. *)
Definition empty_db : Db :=
  {| holdings := []; transactions := []; prices := [];
     seq_holdings := 0; seq_transactions := 0; seq_prices := 0 |}.

(** ** The SQL statements of [CryptoTracker] *)

Module Stmt.

Definition has_symbol (symbol : string) (r : HoldingRow.t) : bool :=
  String.eqb (HoldingRow.symbol r) symbol.

(** The row of [holdings] for [h]. *)
Definition holding_row (rowid : Z) (h : Holding.t) : HoldingRow.t :=
  {| HoldingRow.id := rowid;
     HoldingRow.symbol := Holding.symbol h;
     HoldingRow.name := Holding.name h;
     HoldingRow.total_qty := Sql.real (Holding.total_qty h);
     HoldingRow.avg_cost := Sql.real (Holding.avg_cost h);
     HoldingRow.current_price := Sql.real (Holding.current_price h);
     HoldingRow.created_at := Holding.created_at h |}.

(** [INSERT OR IGNORE INTO holdings (symbol, name, total_qty, avg_cost,
    current_price, created_at) VALUES (?,?,?,?,?,?)].  [symbol] is
    UNIQUE: when a row has it already the statement inserts nothing.
    The rowid it reserved is spent either way. *)
Definition insert_or_ignore_holding (h : Holding.t) (db : Db) : Db :=
  let rowid := (seq_holdings db + 1)%Z in
  {| holdings :=
       if existsb (has_symbol (Holding.symbol h)) (holdings db)
       then holdings db
       else holdings db ++ [holding_row rowid h];
     transactions := transactions db;
     prices := prices db;
     seq_holdings := rowid;
     seq_transactions := seq_transactions db;
     seq_prices := seq_prices db |}.

(** The row of [transactions] for [tx], its two NOT NULL numbers as
    they are stored. *)
Definition transaction_row (rowid : Z) (tx : Transaction.t)
    (quantity price_usd : float) : TransactionRow.t :=
  {| TransactionRow.id := rowid;
     TransactionRow.symbol := Transaction.symbol tx;
     TransactionRow.tx_type := Transaction.tx_type tx;
     TransactionRow.quantity := quantity;
     TransactionRow.price_usd := price_usd;
     TransactionRow.fee_usd := Sql.real (Transaction.fee_usd tx);
     TransactionRow.exchange := Transaction.exchange tx;
     TransactionRow.tx_date := Transaction.tx_date tx |}.

(** [INSERT INTO transactions (symbol, tx_type, quantity, price_usd,
    fee_usd, exchange, tx_date) VALUES (?,?,?,?,?,?,?)] *)
Definition insert_transaction (tx : Transaction.t) (db : Db) : result Db :=
  quantity <- Sql.real_not_null (Transaction.quantity tx) ;;
  price_usd <- Sql.real_not_null (Transaction.price_usd tx) ;;
  let rowid := (seq_transactions db + 1)%Z in
  Ok {| holdings := holdings db;
        transactions :=
          transactions db ++ [transaction_row rowid tx quantity price_usd];
        prices := prices db;
        seq_holdings := seq_holdings db;
        seq_transactions := rowid;
        seq_prices := seq_prices db |}.

(** [SELECT tx_type, quantity, price_usd FROM transactions
    WHERE symbol=?] *)
Definition select_transactions (symbol : string) (db : Db)
  : list TransactionRow.t :=
  filter (fun r => String.eqb (TransactionRow.symbol r) symbol)
         (transactions db).

Definition set_aggregate (total_qty avg_cost : float) (r : HoldingRow.t)
  : HoldingRow.t :=
  {| HoldingRow.id := HoldingRow.id r;
     HoldingRow.symbol := HoldingRow.symbol r;
     HoldingRow.name := HoldingRow.name r;
     HoldingRow.total_qty := Sql.real total_qty;
     HoldingRow.avg_cost := Sql.real avg_cost;
     HoldingRow.current_price := HoldingRow.current_price r;
     HoldingRow.created_at := HoldingRow.created_at r |}.

(** [UPDATE holdings SET total_qty=?, avg_cost=? WHERE symbol=?] *)
Definition update_aggregate (total_qty avg_cost : float) (symbol : string)
    (db : Db) : Db :=
  {| holdings :=
       map (fun r => if has_symbol symbol r
                     then set_aggregate total_qty avg_cost r
                     else r)
           (holdings db);
     transactions := transactions db;
     prices := prices db;
     seq_holdings := seq_holdings db;
     seq_transactions := seq_transactions db;
     seq_prices := seq_prices db |}.

(** The row of [prices] for [rec]. *)
Definition price_row (rowid : Z) (rec : PriceRecord.t) (price_usd : float)
  : PriceRow.t :=
  {| PriceRow.id := rowid;
     PriceRow.symbol := PriceRecord.symbol rec;
     PriceRow.price_usd := price_usd;
     PriceRow.source := PriceRecord.source rec;
     PriceRow.recorded_at := PriceRecord.recorded_at rec |}.

(** [INSERT INTO prices (symbol, price_usd, source, recorded_at)
    VALUES (?,?,?,?)] *)
Definition insert_price (rec : PriceRecord.t) (db : Db) : result Db :=
  price_usd <- Sql.real_not_null (PriceRecord.price_usd rec) ;;
  let rowid := (seq_prices db + 1)%Z in
  Ok {| holdings := holdings db;
        transactions := transactions db;
        prices := prices db ++ [price_row rowid rec price_usd];
        seq_holdings := seq_holdings db;
        seq_transactions := seq_transactions db;
        seq_prices := rowid |}.

Definition set_current_price (price : float) (r : HoldingRow.t)
  : HoldingRow.t :=
  {| HoldingRow.id := HoldingRow.id r;
     HoldingRow.symbol := HoldingRow.symbol r;
     HoldingRow.name := HoldingRow.name r;
     HoldingRow.total_qty := HoldingRow.total_qty r;
     HoldingRow.avg_cost := HoldingRow.avg_cost r;
     HoldingRow.current_price := Sql.real price;
     HoldingRow.created_at := HoldingRow.created_at r |}.

(** [UPDATE holdings SET current_price=? WHERE symbol=?] *)
Definition update_current_price (price : float) (symbol : string)
    (db : Db) : Db :=
  {| holdings :=
       map (fun r => if has_symbol symbol r
                     then set_current_price price r
                     else r)
           (holdings db);
     transactions := transactions db;
     prices := prices db;
     seq_holdings := seq_holdings db;
     seq_transactions := seq_transactions db;
     seq_prices := seq_prices db |}.

(** ORDER BY [key] DESC: a stable sort, greatest key first and NULL
    keys last. *)
Section OrderBy.
Context {A K : Type} (le : K -> K -> bool) (key : A -> K).

Fixpoint insert_desc (x : A) (l : list A) : list A :=
  match l with
  | [] => [x]
  | y :: l' =>
      if le (key y) (key x) then x :: l else y :: insert_desc x l'
  end.

Definition order_by_desc (l : list A) : list A :=
  fold_right insert_desc [] l.
End OrderBy.

(** The sort key [(total_qty * current_price)] of [get_portfolio]. *)
Definition value_key (r : HoldingRow.t) : option float :=
  Sql.mul (HoldingRow.total_qty r) (HoldingRow.current_price r).

(** [SELECT * FROM holdings WHERE total_qty > 0
    ORDER BY (total_qty * current_price) DESC] *)
Definition select_portfolio (db : Db) : list HoldingRow.t :=
  order_by_desc Sql.le value_key
    (filter (fun r => Sql.gt0 (HoldingRow.total_qty r)) (holdings db)).

(** [SELECT * FROM transactions ORDER BY tx_date DESC LIMIT 200]:
    TEXT is compared byte by byte. *)
Definition select_recent_transactions (db : Db) : list TransactionRow.t :=
  firstn 200 (order_by_desc String.leb TransactionRow.tx_date
                            (transactions db)).

End Stmt.

(** ** class CryptoTracker *)

(** A row of [get_portfolio]: [dict(r)] with the four computed keys. *)
Module Position.
Record t : Type := mk {
  row : HoldingRow.t;
  market_value : float;
  cost_basis : float;
  unrealized_pnl : float;
  pnl_pct : float
}.
End Position.

(** The dict [calculate_pnl] returns. *)
Module PnlSummary.
Record t : Type := mk {
  total_market_value : string;
  total_cost_basis : string;
  unrealized_pnl : string;
  pnl_percentage : string;
  winning_positions : nat;
  losing_positions : nat;
  total_positions : nat
}.
End PnlSummary.

(** The local variables of [calculate_pnl] before they are formatted. *)
Module PnlFigures.
Record t : Type := mk {
  total_val : float;
  total_cost : float;
  total_pnl : float;
  pct : float;
  winners : list Position.t;
  losers : list Position.t;
  portfolio : list Position.t
}.
End PnlFigures.

(** The dict [data] that [export_report] serialises. *)
Module Report.
Record t : Type := mk {
  exported_at : string;
  generator : string;
  pnl_summary : PnlSummary.t;
  portfolio : list Position.t;
  recent_transactions : list TransactionRow.t
}.
End Report.

Section CryptoTracker.

Context {B : Py.Builtins}.

Definition add_holding (now : string) (symbol name : string) (db : Db)
  : Db * Holding.t :=
  let h := Holding.make now (Py.upper symbol) name in
  (Stmt.insert_or_ignore_holding h db, h).

(** The body of [for r in rows] in [record_transaction], on the pair
    [(total_qty, total_cost)]. *)
Definition accumulate (acc : float * float) (r : TransactionRow.t)
  : float * float :=
  let '(total_qty, total_cost) := acc in
  if String.eqb (TransactionRow.tx_type r) "buy"
  then (total_qty + TransactionRow.quantity r,
        total_cost + TransactionRow.quantity r * TransactionRow.price_usd r)
  else (total_qty - TransactionRow.quantity r, total_cost).

Definition record_transaction (now : string) (symbol tx_type : string)
    (quantity price fee : float) (exchange : string) (db : Db)
  : result (Db * Transaction.t) :=
  let symbol := Py.upper symbol in
  let tx := Transaction.make now symbol tx_type quantity price fee exchange in
  db1 <- Stmt.insert_transaction tx db ;;
  let rows := Stmt.select_transactions symbol db1 in
  let '(total_qty, total_cost) := fold_left accumulate rows (0, 0) in
  avg_cost <- (if 0 <? total_qty
               then Py.truediv total_cost total_qty
               else Ok 0) ;;
  Ok (Stmt.update_aggregate (Py.max 0 total_qty) (Py.round avg_cost 8)
                            symbol db1,
      tx).

Definition update_price (now : string) (symbol : string) (price : float)
    (source : string) (db : Db) : result (Db * PriceRecord.t) :=
  let symbol := Py.upper symbol in
  let rec := PriceRecord.make now symbol price source in
  db1 <- Stmt.insert_price rec db ;;
  Ok (Stmt.update_current_price price symbol db1, rec).

(** The body of [for r in rows] in [get_portfolio]. *)
Definition annotate (h : HoldingRow.t) : result Position.t :=
  market_val <- Py.mul (HoldingRow.total_qty h) (HoldingRow.current_price h) ;;
  cost_basis <- Py.mul (HoldingRow.total_qty h) (HoldingRow.avg_cost h) ;;
  let pnl := market_val - cost_basis in
  pnl_pct <- (if 0 <? cost_basis
              then q <- Py.truediv pnl cost_basis ;; Ok (q * 100)
              else Ok 0) ;;
  Ok {| Position.row := h;
        Position.market_value := Py.round market_val 2;
        Position.cost_basis := Py.round cost_basis 2;
        Position.unrealized_pnl := Py.round pnl 2;
        Position.pnl_pct := Py.round pnl_pct 2 |}.

Definition get_portfolio (db : Db) : result (list Position.t) :=
  let rows := Stmt.select_portfolio db in
  Py.mapM annotate rows.

(** [calculate_pnl] up to its [return]. *)
Definition pnl_figures (db : Db) : result PnlFigures.t :=
  portfolio <- get_portfolio db ;;
  let total_val := Py.sum (map Position.market_value portfolio) in
  let total_cost := Py.sum (map Position.cost_basis portfolio) in
  let total_pnl := total_val - total_cost in
  let winners := filter (fun h => 0 <? Position.unrealized_pnl h) portfolio in
  let losers := filter (fun h => Position.unrealized_pnl h <? 0) portfolio in
  pct <- (if Py.truthy total_cost
          then q <- Py.truediv total_pnl total_cost ;; Ok (q * 100)
          else Ok 0) ;;
  Ok {| PnlFigures.total_val := total_val;
        PnlFigures.total_cost := total_cost;
        PnlFigures.total_pnl := total_pnl;
        PnlFigures.pct := pct;
        PnlFigures.winners := winners;
        PnlFigures.losers := losers;
        PnlFigures.portfolio := portfolio |}.

(** The dict of the [return] of [calculate_pnl]. *)
Definition pnl_summary (f : PnlFigures.t) : PnlSummary.t :=
  {| PnlSummary.total_market_value :=
       "$" ++ Py.format (PnlFigures.total_val f) ",.2f";
     PnlSummary.total_cost_basis :=
       "$" ++ Py.format (PnlFigures.total_cost f) ",.2f";
     PnlSummary.unrealized_pnl :=
       "$" ++ Py.format (PnlFigures.total_pnl f) "+,.2f";
     PnlSummary.pnl_percentage :=
       Py.format (PnlFigures.pct f) "+.2f" ++ "%";
     PnlSummary.winning_positions := List.length (PnlFigures.winners f);
     PnlSummary.losing_positions := List.length (PnlFigures.losers f);
     PnlSummary.total_positions := List.length (PnlFigures.portfolio f) |}.

Definition calculate_pnl (db : Db) : result PnlSummary.t :=
  f <- pnl_figures db ;;
  Ok (pnl_summary f).

(** The dict [data] of [export_report]. *)
Definition report_data (now : string) (db : Db) : result Report.t :=
  let txs := Stmt.select_recent_transactions db in
  summary <- calculate_pnl db ;;
  portfolio <- get_portfolio db ;;
  Ok {| Report.exported_at := now;
        Report.generator := "BlackRoad Crypto Tracker v1.0";
        Report.pnl_summary := summary;
        Report.portfolio := portfolio;
        Report.recent_transactions := txs |}.

End CryptoTracker.

(** ** A reference implementation of the builtins *)

Module Ref.

Definition upper_ascii (c : ascii) : ascii :=
  let n := N_of_ascii c in
  if ((97 <=? n) && (n <=? 122))%N then ascii_of_N (n - 32) else c.

Fixpoint upper (s : string) : string :=
  match s with
  | EmptyString => EmptyString
  | String c s' => String (upper_ascii c) (upper s')
  end.

(** [n / d] rounded to the nearest integer, ties to even. *)
Definition div_half_even (n d : Z) : Z :=
  let q := (n / d)%Z in
  match (2 * (n mod d) ?= d)%Z with
  | Lt => q
  | Gt => (q + 1)%Z
  | Eq => if Z.even q then q else (q + 1)%Z
  end.

(** [m * 2^e * 10^k] rounded to the nearest integer, ties to even. *)
Definition scaled (m : positive) (e k : Z) : Z :=
  if (0 <=? e)%Z then (Z.pos m * 2 ^ e * 10 ^ k)%Z
  else div_half_even (Z.pos m * 10 ^ k) (2 ^ (- e)).

(** The float nearest to [n / 10^k], with the sign [s]. *)
Definition of_decimal (s : bool) (n : Z) (k : Z) : float :=
  match n, (10 ^ k)%Z with
  | Z.pos p, Z.pos d =>
      SF2Prim (SFdiv prec emax (S754_finite s p 0) (S754_finite false d 0))
  | _, _ => if s then (-0)%float else 0%float
  end.

(** [round(x, ndigits)] for [0 <= ndigits]: the decimal expansion of
    [x] correctly rounded to [ndigits] places, read back as a float. *)
Definition round (x : float) (ndigits : Z) : float :=
  match Prim2SF x with
  | S754_finite s m e => of_decimal s (scaled m e ndigits) ndigits
  | _ => x
  end.

(** [sum] adding from the left, starting from [0]. *)
Definition sum (xs : list float) : float :=
  fold_left PrimFloat.add xs 0%float.

Definition decimal (n : Z) : string :=
  DecimalString.NilZero.string_of_uint (N.to_uint (Z.to_N n)).

(** The digits [s] with a comma before every group of three. *)
Fixpoint group3 (s : string) : string :=
  match s with
  | EmptyString => EmptyString
  | String c s' =>
      let rest := group3 s' in
      if (0 <? String.length s')%nat && (Nat.modulo (String.length s') 3 =? 0)%nat
      then String c (String "," rest)
      else String c rest
  end.

Definition two_digits (n : Z) : string :=
  if (n <? 10)%Z then "0" ++ decimal n else decimal n.

Definition has_comma (spec : string) : bool :=
  match index 0 "," spec with Some _ => true | None => false end.

(** [format(x, spec)] for the specs [,.2f], [+,.2f] and [+.2f]. *)
Definition format (x : float) (spec : string) : string :=
  let sign (s : bool) :=
    if s then "-" else if prefix "+" spec then "+" else "" in
  let fixed (s : bool) (n : Z) :=
    let whole := decimal (n / 100) in
    sign s ++ (if has_comma spec then group3 whole else whole)
           ++ "." ++ two_digits (n mod 100) in
  match Prim2SF x with
  | S754_zero s => fixed s 0%Z
  | S754_infinity s => sign s ++ "inf"
  | S754_nan => sign false ++ "nan"
  | S754_finite s m e => fixed s (scaled m e 2)
  end.

(** *** [float(s)] and [repr(x)] *)

(** The float nearest to [n * 10^k], ties to even, for [0 < n]. *)
Definition nearest (n k : Z) : spec_float :=
  match n with
  | Z.pos p =>
      if (0 <=? k)%Z
      then binary_normalize prec emax (n * 10 ^ k)%Z 0%Z false
      else match (10 ^ (- k))%Z with
           | Z.pos d =>
               SFdiv prec emax (S754_finite false p 0%Z)
                     (S754_finite false d 0%Z)
           | _ => S754_nan
           end
  | _ => S754_zero false
  end.

Definition digit_value (c : ascii) : Z :=
  Z.of_nat (nat_of_ascii c - 48)%nat.
Definition is_digit (c : ascii) : bool :=
  let n := N_of_ascii c in ((48 <=? n) && (n <=? 57))%N.

(** The digits at the head of [s] as a number, their count, and what
    follows them. *)
Fixpoint read_digits (s : string) (acc : Z) (count : Z) : Z * Z * string :=
  match s with
  | String c s' =>
      if is_digit c
      then read_digits s' (10 * acc + digit_value c)%Z (count + 1)%Z
      else (acc, count, s)
  | EmptyString => (acc, count, s)
  end.

(** [float(s)] for a number as JSON writes it:
    [-]digits[.digits][e[+-]digits]. *)
Definition float_of_string (s : string) : float :=
  let '(neg, s0) := match s with
                    | String "-" r => (true, r)
                    | _ => (false, s)
                    end in
  let '(n1, _, s1) := read_digits s0 0%Z 0%Z in
  let '(n2, frac, s2) := match s1 with
                         | String "." r => read_digits r n1 0%Z
                         | _ => (n1, 0%Z, s1)
                         end in
  let e := match s2 with
           | String _ (String "-" r) => (- fst (fst (read_digits r 0 0)))%Z
           | String _ (String "+" r) => fst (fst (read_digits r 0%Z 0%Z))
           | String _ r => fst (fst (read_digits r 0%Z 0%Z))
           | EmptyString => 0%Z
           end in
  let x := SF2Prim (nearest n2 (e - frac)%Z) in
  if neg then (- x)%float else x.

(** The number of decimal digits of [n], for [0 < n]. *)
Definition ndigits (n : Z) : Z := Z.of_nat (String.length (decimal n)).

(** [decpt] of [p / q]: the [k] with [10^(k-1) <= p/q < 10^k]. *)
Definition decpt (p q : Z) : Z :=
  if (q <=? p)%Z then ndigits (p / q)
  else
    (* p/q < 1: the least j with 1 <= p * 10^j / q *)
    let j := (ndigits (q / p))%Z in
    if (q <=? p * 10 ^ (j - 1))%Z then (2 - j)%Z
    else if (q <=? p * 10 ^ j)%Z then (1 - j)%Z else (- j)%Z.

(** The digits of [n] without the zeros at their end. *)
Fixpoint strip (fuel : nat) (n : Z) : Z :=
  match fuel with
  | O => n
  | S fuel' => if (n mod 10 =? 0)%Z then strip fuel' (n / 10) else n
  end.

(** The shortest digits that read back as [x = p/q], as a number [d]
    and the exponent of its last digit ([d * 10^ex]): with [n] digits,
    the decimal below and the decimal above [x] are tried, the nearer
    first. *)
Fixpoint shortest (fuel : nat) (n : Z) (x : float) (p q k : Z) : Z * Z :=
  let s := (n - k)%Z in
  let num := if (0 <=? s)%Z then (p * 10 ^ s)%Z else p in
  let den := if (0 <=? s)%Z then q else (q * 10 ^ (- s))%Z in
  let lo := (num / den)%Z in
  let r := (num mod den)%Z in
  let hi := (lo + 1)%Z in
  let reads d :=
    PrimFloat.Leibniz.eqb (SF2Prim (nearest d (k - n)%Z)) x in
  let first := if (2 * r <? den)%Z then lo
               else if (den <? 2 * r)%Z then hi
               else if Z.even lo then lo else hi in
  let second := if (first =? lo)%Z then hi else lo in
  match fuel with
  | O => (lo, (k - n)%Z)
  | S fuel' =>
      if (r =? 0)%Z then (lo, (k - n)%Z)
      else if reads first then (first, (k - n)%Z)
      else if reads second then (second, (k - n)%Z)
      else shortest fuel' (n + 1)%Z x p q k
  end.

Definition zeros (n : Z) : string :=
  String.concat "" (List.repeat "0" (Z.to_nat n)).

(** [float.__repr__] of a finite number with the digits [ds] and the
    decimal point after [k] of them: an exponent when [k <= -4] or
    [16 < k]. *)
Definition place (ds : string) (k : Z) : string :=
  let n := Z.of_nat (String.length ds) in
  if ((k <=? -4) || (16 <? k))%Z then
    let e := (k - 1)%Z in
    let mant := match ds with
                | String c EmptyString => String c EmptyString
                | String c rest => String c ("." ++ rest)
                | EmptyString => EmptyString
                end in
    let ae := Z.abs e in
    mant ++ "e" ++ (if (e <? 0)%Z then "-" else "+")
         ++ (if (ae <? 10)%Z then "0" else "") ++ decimal ae
  else if (k <=? 0)%Z then "0." ++ zeros (- k)%Z ++ ds
  else if (n <=? k)%Z then ds ++ zeros (k - n)%Z ++ ".0"
  else substring 0 (Z.to_nat k) ds ++ "."
       ++ substring (Z.to_nat k) (Z.to_nat (n - k)%Z) ds.

Definition repr (x : float) : string :=
  match Prim2SF x with
  | S754_zero s => if s then "-0.0" else "0.0"
  | S754_infinity s => if s then "-inf" else "inf"
  | S754_nan => "nan"
  | S754_finite s m e =>
      let p := if (0 <=? e)%Z then (Z.pos m * 2 ^ e)%Z else Z.pos m in
      let q := if (0 <=? e)%Z then 1%Z else (2 ^ (- e))%Z in
      let '(d, ex) := shortest 17 1%Z (abs x) p q (decpt p q) in
      (if s then "-" else "")
      ++ place (decimal (strip 20 d)) (ndigits d + ex)%Z
  end.

#[global] Instance float_text : Py.FloatText :=
  {| Py.repr := repr; Py.float_of_string := float_of_string |}.

#[global] Instance builtins : Py.Builtins :=
  {| Py.upper := upper;
     Py.round := round;
     Py.sum := sum;
     Py.format := format;
     Py.round_zero := fun _ => eq_refl;
     Py.sum_nil := eq_refl |}.

(** A file name that is no path into a directory and no directory. *)
Definition plain_name (path : string) : bool :=
  match index 0 "/" path with
  | Some _ => false
  | None => negb (String.eqb path "" || String.eqb path "."
              || String.eqb path "..")
  end.

(** A working directory without subdirectories, in which every file
    can be written at any time. *)
#[global] Instance files : Py.Files :=
  {| Py.writable := fun _ path => plain_name path |}.

End Ref.

(** ** The exported document

    The values that [json.dumps] writes and [json.loads] reads, dicts,
    lists, strings, numbers, booleans and [None], and the text between
    them: [dumps] is the encoder of the [json] module with [indent=2]
    and its other defaults, [loads] its decoder.  A string of the model
    is the UTF-8 of the Python string. *)

Module Json.

Unset Elimination Schemes.
Inductive t : Type :=
| Null
| Bool (b : bool)
| Int (n : Z)
| Float (x : float)
| Str (s : string)
| List (l : list t)
| Dict (items : list (string * t)).
Set Elimination Schemes.

(** A REAL cell: a number or [None]. *)
Definition of_cell (c : option float) : t :=
  match c with
  | Some x => Float x
  | None => Null
  end.

(** [dict(r)] of a row of [transactions]. *)
Definition of_transaction (r : TransactionRow.t) : t :=
  Dict [("id", Int (TransactionRow.id r));
        ("symbol", Str (TransactionRow.symbol r));
        ("tx_type", Str (TransactionRow.tx_type r));
        ("quantity", Float (TransactionRow.quantity r));
        ("price_usd", Float (TransactionRow.price_usd r));
        ("fee_usd", of_cell (TransactionRow.fee_usd r));
        ("exchange", Str (TransactionRow.exchange r));
        ("tx_date", Str (TransactionRow.tx_date r))].

(** [dict(r)] of a row of [holdings] after [h.update(...)]. *)
Definition of_position (p : Position.t) : t :=
  let r := Position.row p in
  Dict [("id", Int (HoldingRow.id r));
        ("symbol", Str (HoldingRow.symbol r));
        ("name", Str (HoldingRow.name r));
        ("total_qty", of_cell (HoldingRow.total_qty r));
        ("avg_cost", of_cell (HoldingRow.avg_cost r));
        ("current_price", of_cell (HoldingRow.current_price r));
        ("created_at", Str (HoldingRow.created_at r));
        ("market_value", Float (Position.market_value p));
        ("cost_basis", Float (Position.cost_basis p));
        ("unrealized_pnl", Float (Position.unrealized_pnl p));
        ("pnl_pct", Float (Position.pnl_pct p))].

Definition of_summary (s : PnlSummary.t) : t :=
  Dict [("total_market_value", Str (PnlSummary.total_market_value s));
        ("total_cost_basis", Str (PnlSummary.total_cost_basis s));
        ("unrealized_pnl", Str (PnlSummary.unrealized_pnl s));
        ("pnl_percentage", Str (PnlSummary.pnl_percentage s));
        ("winning_positions", Int (Z.of_nat (PnlSummary.winning_positions s)));
        ("losing_positions", Int (Z.of_nat (PnlSummary.losing_positions s)));
        ("total_positions", Int (Z.of_nat (PnlSummary.total_positions s)))].

(** The dict [data] as [json.dumps] sees it. *)
Definition of_report (r : Report.t) : t :=
  Dict [("exported_at", Str (Report.exported_at r));
        ("generator", Str (Report.generator r));
        ("pnl_summary", of_summary (Report.pnl_summary r));
        ("portfolio", List (map of_position (Report.portfolio r)));
        ("recent_transactions",
         List (map of_transaction (Report.recent_transactions r)))].

(** *** [json.dumps(data, indent=2)] *)

Definition quote : ascii := "034"%char.
Definition backslash : ascii := "092"%char.

Definition hex_digit (n : N) : ascii :=
  if (n <? 10)%N then ascii_of_N (48 + n)%N else ascii_of_N (87 + n)%N.

(** [\uXXXX] *)
Definition escape_unit (n : N) : string :=
  String backslash
    (String "u"
       (String (hex_digit (n / 4096 mod 16)%N)
          (String (hex_digit (n / 256 mod 16)%N)
             (String (hex_digit (n / 16 mod 16)%N)
                (String (hex_digit (n mod 16)%N) EmptyString))))).

(** A code point: above the basic plane, a surrogate pair. *)
Definition escape_point (cp : N) : string :=
  if (cp <? 65536)%N then escape_unit cp
  else escape_unit (55296 + (cp - 65536) / 1024)%N
       ++ escape_unit (56320 + (cp - 65536) mod 1024)%N.

(** A character below 128. *)
Definition escape_ascii (c : ascii) : string :=
  let n := N_of_ascii c in
  if Ascii.eqb c quote then String backslash (String quote EmptyString)
  else if Ascii.eqb c backslash
  then String backslash (String backslash EmptyString)
  else if (n =? 10)%N then String backslash "n"
  else if (n =? 13)%N then String backslash "r"
  else if (n =? 9)%N then String backslash "t"
  else if (n =? 8)%N then String backslash "b"
  else if (n =? 12)%N then String backslash "f"
  else if ((n <? 32) || (n =? 127))%N then escape_unit n
  else String c EmptyString.

(** The six bits of a continuation byte of UTF-8. *)
Definition continuation (c : ascii) : option N :=
  let n := N_of_ascii c in
  if ((128 <=? n) && (n <? 192))%N then Some (n - 128)%N else None.

(** [encode_basestring_ascii] without the quotes, on the UTF-8 of the
    string: a character outside [' '..'~'] is escaped. *)
Fixpoint escape (s : string) : string :=
  match s with
  | EmptyString => EmptyString
  | String c s1 =>
      let n := N_of_ascii c in
      let stray := fun _ : unit => escape_unit (56320 + n)%N ++ escape s1 in
      if (n <? 128)%N then escape_ascii c ++ escape s1
      else
        match s1 with
        | String c1 s2 =>
            match continuation c1 with
            | Some x1 =>
                if (n <? 192)%N then stray tt
                else if (n <? 224)%N
                then escape_point ((n - 192) * 64 + x1)%N ++ escape s2
                else
                  match s2 with
                  | String c2 s3 =>
                      match continuation c2 with
                      | Some x2 =>
                          if (n <? 240)%N
                          then escape_point (((n - 224) * 64 + x1) * 64 + x2)%N
                               ++ escape s3
                          else
                            match s3 with
                            | String c3 s4 =>
                                match continuation c3 with
                                | Some x3 =>
                                    if (n <? 248)%N
                                    then escape_point
                                           ((((n - 240) * 64 + x1) * 64 + x2)
                                            * 64 + x3)%N
                                         ++ escape s4
                                    else stray tt
                                | None => stray tt
                                end
                            | EmptyString => stray tt
                            end
                      | None => stray tt
                      end
                  | EmptyString => stray tt
                  end
            | None => stray tt
            end
        | EmptyString => stray tt
        end
  end.

Definition string_text (s : string) : string :=
  String quote (escape s ++ String quote EmptyString).

(** [int.__repr__] *)
Definition int_text (n : Z) : string :=
  NilZero.string_of_int (Z.to_int n).

Section Text.

Context {FT : Py.FloatText}.

(** [floatstr] of the encoder. *)
Definition float_text (x : float) : string :=
  if is_nan x then "NaN"
  else if (x =? infinity)%float then "Infinity"
  else if (x =? neg_infinity)%float then "-Infinity"
  else Py.repr x.

Fixpoint spaces (n : nat) : string :=
  match n with
  | O => EmptyString
  | S n' => String " " (spaces n')
  end.

(** A newline and the indentation of [level]. *)
Definition newline_indent (level : nat) : string :=
  String "010" (spaces (2 * level)%nat).

Definition concat_map {A} (f : A -> string) (l : list A) : string :=
  fold_right (fun a acc => f a ++ acc) EmptyString l.

(** [_iterencode] at the indentation [level]. *)
Fixpoint encode (level : nat) (j : t) : string :=
  match j with
  | Null => "null"
  | Bool b => if b then "true" else "false"
  | Int n => int_text n
  | Float x => float_text x
  | Str s => string_text s
  | List [] => "[]"
  | List (x :: xs) =>
      "[" ++ newline_indent (S level) ++ encode (S level) x
      ++ concat_map (fun y => "," ++ newline_indent (S level)
                              ++ encode (S level) y) xs
      ++ newline_indent level ++ "]"
  | Dict [] => "{}"
  | Dict ((k, v) :: kvs) =>
      "{" ++ newline_indent (S level) ++ string_text k ++ ": "
      ++ encode (S level) v
      ++ concat_map (fun kv => let '(k', v') := kv in
                               "," ++ newline_indent (S level)
                               ++ string_text k' ++ ": "
                               ++ encode (S level) v') kvs
      ++ newline_indent level ++ "}"
  end.

Definition dumps (j : t) : string := encode 0 j.


(** *** [json.loads] *)

Definition is_ws (c : ascii) : bool :=
  let n := N_of_ascii c in
  ((n =? 32) || (n =? 9) || (n =? 10) || (n =? 13))%N.

Fixpoint skip_ws (s : string) : string :=
  match s with
  | String c s' => if is_ws c then skip_ws s' else s
  | EmptyString => EmptyString
  end.

Definition hex_value (c : ascii) : option N :=
  let n := N_of_ascii c in
  if ((48 <=? n) && (n <=? 57))%N then Some (n - 48)%N
  else if ((97 <=? n) && (n <=? 102))%N then Some (n - 87)%N
  else if ((65 <=? n) && (n <=? 70))%N then Some (n - 55)%N
  else None.

Definition hex4_value (a b c d : ascii) : option N :=
  match hex_value a, hex_value b, hex_value c, hex_value d with
  | Some w, Some x, Some y, Some z =>
      Some (((w * 16 + x) * 16 + y) * 16 + z)%N
  | _, _, _, _ => None
  end.

(** The UTF-8 of a code point. *)
Definition utf8 (cp : N) : string :=
  if (cp <? 128)%N then String (ascii_of_N cp) EmptyString
  else if (cp <? 2048)%N
  then String (ascii_of_N (192 + cp / 64)%N)
         (String (ascii_of_N (128 + cp mod 64)%N) EmptyString)
  else if (cp <? 65536)%N
  then String (ascii_of_N (224 + cp / 4096)%N)
         (String (ascii_of_N (128 + cp / 64 mod 64)%N)
            (String (ascii_of_N (128 + cp mod 64)%N) EmptyString))
  else String (ascii_of_N (240 + cp / 262144)%N)
         (String (ascii_of_N (128 + cp / 4096 mod 64)%N)
            (String (ascii_of_N (128 + cp / 64 mod 64)%N)
               (String (ascii_of_N (128 + cp mod 64)%N) EmptyString))).

(** The character after a backslash that is no [u]. *)
Definition unescape (e : ascii) : option ascii :=
  let n := N_of_ascii e in
  if Ascii.eqb e quote then Some quote
  else if Ascii.eqb e backslash then Some backslash
  else if Ascii.eqb e "/" then Some "/"%char
  else if Ascii.eqb e "b" then Some "008"%char
  else if Ascii.eqb e "f" then Some "012"%char
  else if Ascii.eqb e "n" then Some "010"%char
  else if Ascii.eqb e "r" then Some "013"%char
  else if Ascii.eqb e "t" then Some "009"%char
  else None.

Definition push (p : string) (r : option (string * string))
  : option (string * string) :=
  match r with
  | Some (s, rest) => Some (p ++ s, rest)
  | None => None
  end.

Definition high_surrogate (u : N) : bool := ((55296 <=? u) && (u <? 56320))%N.
Definition low_surrogate (u : N) : bool := ((56320 <=? u) && (u <? 57344))%N.

(** [scanstring] after the opening quote: the string and what follows
    its closing quote. *)
Fixpoint scan_string (s : string) : option (string * string) :=
  match s with
  | EmptyString => None
  | String c s1 =>
      if Ascii.eqb c quote then Some (EmptyString, s1)
      else if Ascii.eqb c backslash then
        match s1 with
        | String e s2 =>
            if Ascii.eqb e "u" then
              match s2 with
              | String h1 (String h2 (String h3 (String h4 s3))) =>
                  match hex4_value h1 h2 h3 h4 with
                  | Some u =>
                      if high_surrogate u then
                        match s3 with
                        | String b (String v (String k1 (String k2
                            (String k3 (String k4 (String _ _ as s4)))))) =>
                            if Ascii.eqb b backslash && Ascii.eqb v "u" then
                              match hex4_value k1 k2 k3 k4 with
                              | Some u2 =>
                                  if low_surrogate u2
                                  then push (utf8 (65536 + (u - 55296) * 1024
                                                   + (u2 - 56320))%N)
                                            (scan_string s4)
                                  else push (utf8 u) (scan_string s3)
                              | None => None
                              end
                            else push (utf8 u) (scan_string s3)
                        | _ => push (utf8 u) (scan_string s3)
                        end
                      else push (utf8 u) (scan_string s3)
                  | None => None
                  end
              | _ => None
              end
            else
              match unescape e with
              | Some c' => push (String c' EmptyString) (scan_string s2)
              | None => None
              end
        | EmptyString => None
        end
      else if (N_of_ascii c <? 32)%N then None
      else push (String c EmptyString) (scan_string s1)
  end.

Definition is_digit (c : ascii) : bool :=
  let n := N_of_ascii c in ((48 <=? n) && (n <=? 57))%N.

(** The digits at the head of [s], and what follows them. *)
Fixpoint digits (s : string) : string * string :=
  match s with
  | String c s' =>
      if is_digit c
      then let '(d, r) := digits s' in (String c d, r)
      else (EmptyString, s)
  | EmptyString => (EmptyString, EmptyString)
  end.














End Text.

(** *** The values that are read back as they were written *)

Fixpoint ascii_only (s : string) : bool :=
  match s with
  | EmptyString => true
  | String c s' => (N_of_ascii c <? 128)%N && ascii_only s'
  end.



(** The head of a number: a digit, or a minus and a digit. *)
Definition number_head (s : string) : Prop :=
  match s with
  | String c s' =>
      is_digit c = true \/
      (c = "-"%char /\
       match s' with
       | String d _ => is_digit d = true
       | EmptyString => False
       end)
  | EmptyString => False
  end.



Section Plain.

Context {FT : Py.FloatText}.




End Plain.

End Json.

Section Document.

Context {B : Py.Builtins} {F : Py.Files} {FT : Py.FloatText}.

(** [Path(path).write_text(text)]: the file written.  [Path("")] is the
    directory [.], which [open] refuses; and [open] raises an OSError
    wherever the file system does not let the file be written (a
    missing directory, a directory in the place of the file, no
    permission). *)
Definition write_text {A : Type} (now path : string) (text : A)
  : result (string * A) :=
  if String.eqb path "" then Raise OSError
  else if Py.writable now path then Ok (path, text)
  else Raise OSError.

(** [export_report]: the file written, [output_path] with the text of
    [json.dumps(data, indent=2)], and the path returned. *)
Definition export_report (now output_path : string) (db : Db)
  : result ((string * string) * string) :=
  data <- report_data now db ;;
  file <- write_text now output_path (Json.dumps (Json.of_report data)) ;;
  Ok (file, output_path).

End Document.

(** ** Sequences of operations *)

(** The mutating entry points of the tracker.  A call that raises leaves
    the database as it was. *)
Inductive command : Type :=
| AddHolding (now symbol name : string)
| RecordTransaction (now symbol tx_type : string) (quantity price fee : float)
                    (exchange : string)
| UpdatePrice (now symbol : string) (price : float) (source : string).

Section Run.

Context {B : Py.Builtins}.

Definition exec (db : Db) (c : command) : Db :=
  match c with
  | AddHolding now symbol name => fst (add_holding now symbol name db)
  | RecordTransaction now symbol tx_type quantity price fee exchange =>
      match record_transaction now symbol tx_type quantity price fee
                               exchange db with
      | Ok (db', _) => db'
      | Raise _ => db
      end
  | UpdatePrice now symbol price source =>
      match update_price now symbol price source db with
      | Ok (db', _) => db'
      | Raise _ => db
      end
  end.

(** The database after the commands [cs], starting from a new file. *)
Definition run (cs : list command) : Db := fold_left exec cs empty_db.

End Run.

(** ** The aggregate of a history, as the specification words it

    Each buy contributes [+quantity] to the quantity and
    [+quantity * price] to the cost; each sell contributes [-quantity]
    to the quantity and nothing to the cost. *)

Module Ledger.

Definition is_buy (r : TransactionRow.t) : bool :=
  String.eqb (TransactionRow.tx_type r) "buy".

Definition is_sell (r : TransactionRow.t) : bool :=
  String.eqb (TransactionRow.tx_type r) "sell".

Definition well_typed (r : TransactionRow.t) : Prop :=
  TransactionRow.tx_type r = "buy" \/ TransactionRow.tx_type r = "sell".

(** The history of [symbol] in the log [txs]: the transactions recorded
    for it and no other, oldest first. *)
Fixpoint of_symbol (symbol : string) (txs : list TransactionRow.t)
  : list TransactionRow.t :=
  match txs with
  | [] => []
  | r :: txs' =>
      if String.eqb symbol (TransactionRow.symbol r)
      then r :: of_symbol symbol txs'
      else of_symbol symbol txs'
  end.

(** The row [r] read as a sell, unless it is a buy. *)
Definition as_sell (r : TransactionRow.t) : TransactionRow.t :=
  if String.eqb (TransactionRow.tx_type r) "buy" then r
  else {| TransactionRow.id := TransactionRow.id r;
          TransactionRow.symbol := TransactionRow.symbol r;
          TransactionRow.tx_type := "sell";
          TransactionRow.quantity := TransactionRow.quantity r;
          TransactionRow.price_usd := TransactionRow.price_usd r;
          TransactionRow.fee_usd := TransactionRow.fee_usd r;
          TransactionRow.exchange := TransactionRow.exchange r;
          TransactionRow.tx_date := TransactionRow.tx_date r |}.

Definition total_qty (history : list TransactionRow.t) : float :=
  fold_left
    (fun acc r =>
       if is_buy r then acc + TransactionRow.quantity r
       else if is_sell r then acc - TransactionRow.quantity r
       else acc)
    history 0.

Definition total_cost (history : list TransactionRow.t) : float :=
  fold_left
    (fun acc r =>
       if is_buy r
       then acc + TransactionRow.quantity r * TransactionRow.price_usd r
       else acc)
    history 0.

(** [x] clamped to a minimum of [0]. *)
Definition clamp (x : float) : float := if 0 <? x then x else 0.

Section Avg.
Context {B : Py.Builtins}.

(** [total_cost / total_qty] rounded to 8 places when
    [total_qty > 0], else [0]. *)
Definition avg_cost (history : list TransactionRow.t) : float :=
  if 0 <? total_qty history
  then Py.round (total_cost history / total_qty history) 8
  else 0.
End Avg.

End Ledger.

(** ** Predicates of the statements *)

Module Ieee.

(** A number that is not greater than zero, or no number. *)
Definition not_positive (r : spec_float) : Prop :=
  match r with
  | S754_infinity false | S754_finite false _ _ => False
  | _ => True
  end.

End Ieee.

(** The holdings [get_portfolio] selects. *)
Definition held (h : HoldingRow.t) : bool := Sql.gt0 (HoldingRow.total_qty h).

(** Every held asset has a price and an average cost (no NULL cell). *)
Definition priced (db : Db) : Prop :=
  forall h, In h (holdings db) -> held h = true ->
    HoldingRow.current_price h <> None /\ HoldingRow.avg_cost h <> None.

(** [p] may stand before [p'] in descending order of value: the
    product [total_qty * current_price] of [p] is at least that of
    [p'], where a product that is no number ([inf * 0]) counts as the
    least. *)
Definition value_desc (p p' : Position.t) : Prop :=
  match HoldingRow.total_qty (Position.row p),
        HoldingRow.current_price (Position.row p),
        HoldingRow.total_qty (Position.row p'),
        HoldingRow.current_price (Position.row p') with
  | Some q, Some c, Some q', Some c' =>
      is_nan (q' * c') = true \/ (q' * c' <=? q * c) = true
  | _, _, _, _ => False
  end.


Section Valued.

Context {B : Py.Builtins}.

(** The four computed figures of a position, from its row. *)
Definition valued (p : Position.t) : Prop :=
  exists q c a,
    HoldingRow.total_qty (Position.row p) = Some q /\
    HoldingRow.current_price (Position.row p) = Some c /\
    HoldingRow.avg_cost (Position.row p) = Some a /\
    Position.market_value p = Py.round (q * c) 2 /\
    Position.cost_basis p = Py.round (q * a) 2 /\
    Position.unrealized_pnl p = Py.round (q * c - q * a) 2 /\
    Position.pnl_pct p =
      Py.round (if 0 <? q * a
                then (q * c - q * a) / (q * a) * 100
                else 0) 2.

End Valued.

Section Recorded.

Context {B : Py.Builtins}.

(** The row that [record_transaction] appends to [transactions]. *)
Definition recorded_row (now symbol tx_type : string)
    (quantity price fee : float) (exchange : string) (db : Db)
  : TransactionRow.t :=
  Stmt.transaction_row
    (seq_transactions db + 1)
    (Transaction.make now (Py.upper symbol) tx_type quantity price fee
                      exchange)
    (Sql.stored quantity) (Sql.stored price).

(** The row that [update_price] appends to [prices]. *)
Definition observed_row (now symbol : string) (price : float)
    (source : string) (db : Db) : PriceRow.t :=
  Stmt.price_row (seq_prices db + 1)
                 (PriceRecord.make now (Py.upper symbol) price source)
                 (Sql.stored price).

(** The transactions of [symbol] that [record_transaction] scans. *)
Definition history (symbol : string) (db : Db) : list TransactionRow.t :=
  Stmt.select_transactions (Py.upper symbol) db.

(** The quantity of [symbol] that the ledger tracks: the [total_qty]
    that [record_transaction] computes of its history and stores,
    [max(0.0, total_qty)]. *)
Definition tracked_qty (symbol : string) (db : Db) : float :=
  Py.max 0 (fst (fold_left accumulate (history symbol db) (0, 0))).

(** What [update_price] may change of a holding [h], giving [h']: for
    the holding of the symbol the price, and nothing for any other. *)
Definition repriced (symbol : string) (price : float)
    (h h' : HoldingRow.t) : Prop :=
  HoldingRow.id h' = HoldingRow.id h /\
  HoldingRow.symbol h' = HoldingRow.symbol h /\
  HoldingRow.name h' = HoldingRow.name h /\
  HoldingRow.total_qty h' = HoldingRow.total_qty h /\
  HoldingRow.avg_cost h' = HoldingRow.avg_cost h /\
  HoldingRow.created_at h' = HoldingRow.created_at h /\
  (HoldingRow.symbol h = Py.upper symbol ->
   HoldingRow.current_price h' = Some (Sql.stored price)) /\
  (HoldingRow.symbol h <> Py.upper symbol -> h' = h).

(** The summary of a portfolio with no position. *)
Definition zero_summary : PnlSummary.t :=
  {| PnlSummary.total_market_value := "$" ++ Py.format 0 ",.2f";
     PnlSummary.total_cost_basis := "$" ++ Py.format 0 ",.2f";
     PnlSummary.unrealized_pnl := "$" ++ Py.format 0 "+,.2f";
     PnlSummary.pnl_percentage := Py.format 0 "+.2f" ++ "%";
     PnlSummary.winning_positions := 0;
     PnlSummary.losing_positions := 0;
     PnlSummary.total_positions := 0 |}.

End Recorded.

(** A quantity cell that holds a number, and one that is not negative. *)
Definition nonneg_cell (c : option float) : Prop :=
  exists x, c = Some x /\ (0 <=? x) = true.

(** ** A worked ledger

    One asset, two buys, a sell and a price, run with the reference
    builtins. *)

Module Scenario.

Definition commands : list command :=
  [AddHolding "2024-01-01T09:00:00" "btc" "Bitcoin";
   RecordTransaction "2024-01-02T09:00:00" "btc" "buy" 1 50000 0 "manual";
   RecordTransaction "2024-01-03T09:00:00" "btc" "buy" 1 70000 0 "manual";
   RecordTransaction "2024-01-04T09:00:00" "btc" "sell" 0.5 80000 0 "manual";
   UpdatePrice "2024-01-05T09:00:00" "btc" 65000 "manual"].

Definition db : Db := run commands.

(** The stored holding of BTC after [commands]. *)
Definition btc : HoldingRow.t :=
  {| HoldingRow.id := 1;
     HoldingRow.symbol := "BTC";
     HoldingRow.name := "Bitcoin";
     HoldingRow.total_qty := Some 1.5;
     HoldingRow.avg_cost := Some 80000;
     HoldingRow.current_price := Some 65000;
     HoldingRow.created_at := "2024-01-01T09:00:00" |}.

Definition position : Position.t :=
  {| Position.row := btc;
     Position.market_value := 97500;
     Position.cost_basis := 120000;
     Position.unrealized_pnl := -22500;
     Position.pnl_pct := -18.75 |}.

(** A transaction row as no buy or sell is written: upper case. *)
Definition shouted : TransactionRow.t :=
  {| TransactionRow.id := 4;
     TransactionRow.symbol := "BTC";
     TransactionRow.tx_type := "SELL";
     TransactionRow.quantity := 0.25;
     TransactionRow.price_usd := 64000;
     TransactionRow.fee_usd := Some 0;
     TransactionRow.exchange := "manual";
     TransactionRow.tx_date := "2024-01-06T09:00:00" |}.

End Scenario.

(** ** A ledger of two assets

    Two assets registered in the order of their symbols, each bought
    once and priced at 10: one unit of the first, a thousand of the
    second. *)

Module TwoAssets.

Definition commands : list command :=
  [AddHolding "2024-02-01T09:00:00" "aaa" "Alpha";
   AddHolding "2024-02-01T09:01:00" "bbb" "Beta";
   RecordTransaction "2024-02-02T09:00:00" "aaa" "buy" 1 8 0 "manual";
   RecordTransaction "2024-02-02T09:01:00" "bbb" "buy" 1000 5 0 "manual";
   UpdatePrice "2024-02-03T09:00:00" "aaa" 10 "manual";
   UpdatePrice "2024-02-03T09:01:00" "bbb" 10 "manual"].

Definition db : Db := run commands.

Definition aaa : Position.t :=
  {| Position.row :=
       {| HoldingRow.id := 1;
          HoldingRow.symbol := "AAA";
          HoldingRow.name := "Alpha";
          HoldingRow.total_qty := Some 1;
          HoldingRow.avg_cost := Some 8;
          HoldingRow.current_price := Some 10;
          HoldingRow.created_at := "2024-02-01T09:00:00" |};
     Position.market_value := 10;
     Position.cost_basis := 8;
     Position.unrealized_pnl := 2;
     Position.pnl_pct := 25 |}.

Definition bbb : Position.t :=
  {| Position.row :=
       {| HoldingRow.id := 2;
          HoldingRow.symbol := "BBB";
          HoldingRow.name := "Beta";
          HoldingRow.total_qty := Some 1000;
          HoldingRow.avg_cost := Some 5;
          HoldingRow.current_price := Some 10;
          HoldingRow.created_at := "2024-02-01T09:01:00" |};
     Position.market_value := 10000;
     Position.cost_basis := 5000;
     Position.unrealized_pnl := 5000;
     Position.pnl_pct := 100 |}.

End TwoAssets.

(** ** Views of the store *)

(** What identifies a holding: the fields no operation rewrites. *)
Definition identity (h : HoldingRow.t) : Z * string * string * string :=
  (HoldingRow.id h, HoldingRow.symbol h, HoldingRow.name h,
   HoldingRow.created_at h).

(** The rowids [1 .. n]. *)
Definition rowids (n : nat) : list Z := map Z.of_nat (seq 1 n).

(** The table [holdings] after an operation, or its exception. *)
Definition holdings_after {A : Type} (r : result (Db * A))
  : result (list HoldingRow.t) :=
  match r with
  | Ok (db, _) => Ok (holdings db)
  | Raise e => Raise e
  end.

Section Reaggregated.

Context {B : Py.Builtins}.

(** What [record_transaction] may change of a holding [h], giving [h']:
    for the holding of the symbol the two aggregates, and nothing for any
    other. *)
Definition reaggregated (symbol : string) (h h' : HoldingRow.t) : Prop :=
  identity h' = identity h /\
  HoldingRow.current_price h' = HoldingRow.current_price h /\
  (HoldingRow.symbol h <> Py.upper symbol -> h' = h).

(** No stored holding has the symbol. *)
Definition unregistered (symbol : string) (db : Db) : Prop :=
  forall h, In h (holdings db) -> HoldingRow.symbol h <> Py.upper symbol.

End Reaggregated.

(** ** The command line

    The functions [cmd_*] and [main] of the module, after [argparse] has
    read the arguments.  A command prints lines and ends with a value or
    with an exception, which [main] does not catch; what it has printed
    before an exception stays printed. *)

Module Cli.

(** The ANSI colour codes. *)
Definition esc : string := String "027"%char "".
Definition RED : string := esc ++ "[0;31m".
Definition GREEN : string := esc ++ "[0;32m".
Definition YELLOW : string := esc ++ "[1;33m".
Definition CYAN : string := esc ++ "[0;36m".
Definition BLUE : string := esc ++ "[0;34m".
Definition BOLD : string := esc ++ "[1m".
Definition DIM : string := esc ++ "[2m".
Definition NC : string := esc ++ "[0m".

(** The newline [\n] of a string literal. *)
Definition nl : string := String "010"%char "".

(** ['━' * w], the rule of a header. *)
Fixpoint times (s : string) (w : nat) : string :=
  match w with
  | O => ""
  | S w' => s ++ times s w'
  end.

(** The lines printed, and the value or the exception at the end. *)
Definition io (A : Type) : Type := list string * result A.

Definition lift {A} (r : result A) : io A := ([], r).

(** [print(s)]: one line, [s] without the newline that [print] adds. *)
Definition print (s : string) : io unit := ([s], Ok tt).

Definition then_ {A C} (m : io A) (f : A -> io C) : io C :=
  match m with
  | (out, Ok a) => let '(out', r) := f a in (out ++ out', r)%list
  | (out, Raise e) => (out, Raise e)
  end.

(** [for x in xs: body] *)
Fixpoint for_each {A} (body : A -> io unit) (xs : list A) : io unit :=
  match xs with
  | [] => ([], Ok tt)
  | x :: xs' => then_ (body x) (fun _ => for_each body xs')
  end.

(** The string methods and the [format] of a [str] that the commands
    call, a parameter like [Py.Builtins]. *)
Class Text : Type := {
  (** [format(s, spec)] of a string, as in [f"{s:<8}"] *)
  format_str : string -> string -> string;
  (** [s.replace(old, new)] *)
  replace : string -> string -> string -> string;
  (** [s.title()] *)
  title : string -> string
}.

(** The values of the dict of [calculate_pnl]: a string or a count. *)
Inductive value : Type :=
| Str (s : string)
| Int (n : nat).

(** [str(val)] *)
Definition str (v : value) : string :=
  match v with
  | Str s => s
  | Int n => NilZero.string_of_uint (Nat.to_uint n)
  end.

(** [c in s] for a character [c]. *)
Fixpoint contains (c : ascii) (s : string) : bool :=
  match s with
  | EmptyString => false
  | String c' s' => Ascii.eqb c c' || contains c s'
  end.

(** [summary.items()] *)
Definition items (s : PnlSummary.t) : list (string * value) :=
  [("total_market_value", Str (PnlSummary.total_market_value s));
   ("total_cost_basis", Str (PnlSummary.total_cost_basis s));
   ("unrealized_pnl", Str (PnlSummary.unrealized_pnl s));
   ("pnl_percentage", Str (PnlSummary.pnl_percentage s));
   ("winning_positions", Int (PnlSummary.winning_positions s));
   ("losing_positions", Int (PnlSummary.losing_positions s));
   ("total_positions", Int (PnlSummary.total_positions s))].

(** The arguments [argparse] hands to [main], by subcommand. *)
Inductive args : Type :=
| List_
| Add (symbol name : string)
| Buy (symbol : string) (qty price fee : float)
| Sell (symbol : string) (qty price fee : float)
| Price (symbol : string) (price : float) (source : string)
| Pnl
| Export_ (output : string).

End Cli.

Notation "x <~ m ;; k" := (Cli.then_ m (fun x => k))
  (at level 61, m at next level, right associativity).

Section Commands.

Context {B : Py.Builtins} {T : Cli.Text} {F : Py.Files}
        {FT : Py.FloatText}.

Import Cli.

Definition _header (title : string) : io unit :=
  let w := 64%nat in
  _ <~ print (nl ++ BOLD ++ BLUE ++ times "━" w ++ NC) ;;
  _ <~ print (BOLD ++ BLUE ++ "  " ++ title ++ NC) ;;
  print (BOLD ++ BLUE ++ times "━" w ++ NC).

Definition _pnl_color (pnl : float) : string :=
  if 0 <=? pnl then GREEN else RED.

(** [f"{x:spec}"] of a cell of a row: [None] has no float format. *)
Definition format_cell (c : option float) (spec : string) : result string :=
  match c with
  | Some x => Ok (Py.format x spec)
  | None => Raise TypeError
  end.

(** The body of [for h in portfolio] in [cmd_list]. *)
Definition list_entry (h : Position.t) : io unit :=
  let r := Position.row h in
  let pc := _pnl_color (Position.unrealized_pnl h) in
  let sign := if 0 <=? Position.unrealized_pnl h then "+" else "" in
  _ <~ print ("  " ++ CYAN ++ format_str (HoldingRow.symbol r) "<8" ++ NC
              ++ " " ++ BOLD ++ format_str (HoldingRow.name r) "<22" ++ NC) ;;
  total_qty <~ lift (format_cell (HoldingRow.total_qty r) ">16.8f") ;;
  avg_cost <~ lift (format_cell (HoldingRow.avg_cost r) ">12.4f") ;;
  current_price <~ lift (format_cell (HoldingRow.current_price r) ">12.4f") ;;
  _ <~ print ("    Qty:   " ++ total_qty ++ "    "
              ++ "Avg Cost: " ++ YELLOW ++ "$" ++ avg_cost ++ NC ++ "    "
              ++ "Price: " ++ YELLOW ++ "$" ++ current_price ++ NC) ;;
  _ <~ print ("    Value: " ++ GREEN ++ "$"
              ++ Py.format (Position.market_value h) ">14,.2f" ++ NC ++ "    "
              ++ "P&L: " ++ pc ++ sign ++ "$"
              ++ Py.format (Position.unrealized_pnl h) ">10,.2f" ++ " "
              ++ "(" ++ sign ++ Py.format (Position.pnl_pct h) ".2f" ++ "%)"
              ++ NC) ;;
  print "".

Definition cmd_list (tracker : Db) : io unit :=
  portfolio <~ lift (get_portfolio tracker) ;;
  _ <~ _header "CRYPTO TRACKER — Portfolio" ;;
  match portfolio with
  | [] =>
      print ("  " ++ YELLOW ++ "No holdings found. Use 'add' to track assets."
             ++ NC ++ nl)
  | _ :: _ =>
      let total_value := Py.sum (map Position.market_value portfolio) in
      _ <~ for_each list_entry portfolio ;;
      print ("  " ++ BOLD ++ "Total Portfolio Value: " ++ GREEN ++ "$"
             ++ Py.format total_value ",.2f" ++ NC ++ nl)
  end.

Definition cmd_add (now symbol name : string) (tracker : Db) : io Db :=
  let '(db, _) := add_holding now symbol name tracker in
  _ <~ print (nl ++ GREEN ++ "✓ Asset registered:" ++ NC ++ " "
              ++ BOLD ++ Py.upper symbol ++ NC ++ " — " ++ name ++ nl) ;;
  lift (Ok db).

Definition cmd_buy (now symbol : string) (qty price fee : float)
    (tracker : Db) : io Db :=
  r <~ lift (record_transaction now symbol "buy" qty price fee "manual"
                                tracker) ;;
  let total := qty * price in
  _ <~ print (nl ++ GREEN ++ "✓ BUY recorded" ++ NC ++ "  "
              ++ BOLD ++ Py.upper symbol ++ NC ++ "  " ++ Py.format qty ""
              ++ " @ " ++ "$" ++ Py.format price ",.4f" ++ " = " ++ YELLOW
              ++ "$" ++ Py.format total ",.2f" ++ NC ++ nl) ;;
  lift (Ok (fst r)).

Definition cmd_sell (now symbol : string) (qty price fee : float)
    (tracker : Db) : io Db :=
  r <~ lift (record_transaction now symbol "sell" qty price fee "manual"
                                tracker) ;;
  let total := qty * price in
  _ <~ print (nl ++ CYAN ++ "✓ SELL recorded" ++ NC ++ "  "
              ++ BOLD ++ Py.upper symbol ++ NC ++ "  " ++ Py.format qty ""
              ++ " @ " ++ "$" ++ Py.format price ",.4f" ++ " = " ++ YELLOW
              ++ "$" ++ Py.format total ",.2f" ++ NC ++ nl) ;;
  lift (Ok (fst r)).

Definition cmd_price (now symbol : string) (price : float) (source : string)
    (tracker : Db) : io Db :=
  r <~ lift (update_price now symbol price source tracker) ;;
  _ <~ print (nl ++ CYAN ++ "✓ Price updated:" ++ NC ++ " "
              ++ BOLD ++ Py.upper symbol ++ NC ++ " = "
              ++ YELLOW ++ "$" ++ Py.format price ",.4f" ++ NC
              ++ "  [" ++ source ++ "]" ++ nl) ;;
  lift (Ok (fst r)).

(** The body of [for key, val in summary.items()] in [cmd_pnl]. *)
Definition pnl_entry (item : string * value) : io unit :=
  let '(key, val) := item in
  let label := title (replace key "_" " ") in
  let color := if contains "+" (str val) then GREEN
               else if contains "-" (str val) then RED
               else CYAN in
  print ("  " ++ DIM ++ format_str label "<25" ++ NC ++ "  "
         ++ BOLD ++ color ++ str val ++ NC).

Definition cmd_pnl (tracker : Db) : io unit :=
  summary <~ lift (calculate_pnl tracker) ;;
  _ <~ _header "CRYPTO PORTFOLIO — P&L SUMMARY" ;;
  _ <~ for_each pnl_entry (items summary) ;;
  print "".

(** [cmd_export]: the file written, with the lines printed. *)
Definition cmd_export (now output : string) (tracker : Db)
  : io (string * string) :=
  r <~ lift (export_report now output tracker) ;;
  let '(file, path) := r in
  _ <~ print (nl ++ GREEN ++ "✓ Report exported to:" ++ NC ++ " "
              ++ BOLD ++ path ++ NC ++ nl) ;;
  lift (Ok file).

(** [CryptoTracker()]: [_init_db] creates the tables that are not there
    and leaves those that are. *)
Definition _init_db (store : option Db) : Db :=
  match store with
  | Some db => db
  | None => empty_db
  end.

(** [main] once the arguments are parsed: the lines printed, and the
    database with the files written or the exception. *)
Definition main (now : string) (a : args) (store : option Db)
  : io (Db * list (string * string)) :=
  let tracker := _init_db store in
  match a with
  | List_ => _ <~ cmd_list tracker ;; lift (Ok (tracker, []))
  | Add symbol name =>
      db <~ cmd_add now symbol name tracker ;; lift (Ok (db, []))
  | Buy symbol qty price fee =>
      db <~ cmd_buy now symbol qty price fee tracker ;; lift (Ok (db, []))
  | Sell symbol qty price fee =>
      db <~ cmd_sell now symbol qty price fee tracker ;; lift (Ok (db, []))
  | Price symbol price source =>
      db <~ cmd_price now symbol price source tracker ;; lift (Ok (db, []))
  | Pnl => _ <~ cmd_pnl tracker ;; lift (Ok (tracker, []))
  | Export_ output =>
      file <~ cmd_export now output tracker ;; lift (Ok (tracker, [file]))
  end.

(** The database file after one run of the program: a run that ends
    with an exception has written nothing but the tables. *)
Definition after (store : option Db) (run : string * args) : option Db :=
  match snd (main (fst run) (snd run) store) with
  | Ok (db, _) => Some db
  | Raise _ => Some (_init_db store)
  end.

(** The database file after the runs [runs], from no file. *)
Definition session (runs : list (string * args)) : Db :=
  _init_db (fold_left after runs None).

End Commands.

(** ** Views of the command line *)

(** The method call that one run of the program makes on the tracker,
    if it makes one that writes. *)
Definition call (r : string * Cli.args) : list command :=
  let now := fst r in
  match snd r with
  | Cli.Add symbol name => [AddHolding now symbol name]
  | Cli.Buy symbol qty price fee =>
      [RecordTransaction now symbol "buy" qty price fee "manual"]
  | Cli.Sell symbol qty price fee =>
      [RecordTransaction now symbol "sell" qty price fee "manual"]
  | Cli.Price symbol price source => [UpdatePrice now symbol price source]
  | Cli.List_ | Cli.Pnl | Cli.Export_ _ => []
  end.

(** The subcommands [list], [pnl] and [export]. *)
Definition reads_only (a : Cli.args) : bool :=
  match a with
  | Cli.List_ | Cli.Pnl | Cli.Export_ _ => true
  | _ => false
  end.

(** A [buy] or a [sell] of the command line. *)
Definition trade (buy : bool) (symbol : string) (qty price fee : float)
  : Cli.args :=
  if buy then Cli.Buy symbol qty price fee else Cli.Sell symbol qty price fee.

Definition side (buy : bool) : string := if buy then "buy" else "sell".

(** A transaction as the command line writes it. *)
Definition manual_trade (r : TransactionRow.t) : Prop :=
  Ledger.well_typed r /\ TransactionRow.exchange r = "manual".

(** The last line of [cmd_list] on a portfolio with a position, for the
    total [total] as a string. *)
Definition total_line (total : string) : string :=
  "  " ++ Cli.BOLD ++ "Total Portfolio Value: " ++ Cli.GREEN ++ total
  ++ Cli.NC ++ Cli.nl.

Section Lines.

Context {T : Cli.Text}.

(** The line of [cmd_pnl] for the key [key] with the count [n], in
    cyan. *)
Definition count_line (key : string) (n : nat) : string :=
  "  " ++ Cli.DIM
  ++ Cli.format_str (Cli.title (Cli.replace key "_" " ")) "<25"
  ++ Cli.NC ++ "  " ++ Cli.BOLD ++ Cli.CYAN ++ Cli.str (Cli.Int n) ++ Cli.NC.

End Lines.

(** ** A reference implementation of the string methods

    For ASCII strings, where a byte is a character. *)

Module RefText.

Fixpoint spaces (n : nat) : string :=
  match n with
  | O => ""
  | S n' => String " " (spaces n')
  end.

(** The number that the digits [s] write, if [s] is digits only. *)
Fixpoint width_of (s : string) (acc : nat) : option nat :=
  match s with
  | EmptyString => Some acc
  | String c s' =>
      let n := nat_of_ascii c in
      if ((48 <=? n) && (n <=? 57))%nat
      then width_of s' (10 * acc + (n - 48))
      else None
  end.

(** [format(s, spec)] for the specs ["<N"] and [""]. *)
Definition format_str (s spec : string) : string :=
  match spec with
  | String "<" digits =>
      match width_of digits 0 with
      | Some w => s ++ spaces (w - String.length s)
      | None => s
      end
  | _ => s
  end.

(** [s.replace(old, new)] for a one-character [old]. *)
Fixpoint replace_char (s : string) (old : ascii) (new : string) : string :=
  match s with
  | EmptyString => EmptyString
  | String c s' =>
      if Ascii.eqb c old then new ++ replace_char s' old new
      else String c (replace_char s' old new)
  end.

Definition replace (s old new : string) : string :=
  match old with
  | String c EmptyString => replace_char s c new
  | _ => s
  end.

Definition is_upper (c : ascii) : bool :=
  let n := nat_of_ascii c in ((65 <=? n) && (n <=? 90))%nat.

Definition is_lower (c : ascii) : bool :=
  let n := nat_of_ascii c in ((97 <=? n) && (n <=? 122))%nat.

Definition lower_ascii (c : ascii) : ascii :=
  if is_upper c then ascii_of_nat (nat_of_ascii c + 32) else c.

(** [s.title()]: a letter after a letter in lower case, any other letter
    in upper case. *)
Fixpoint title_from (after_letter : bool) (s : string) : string :=
  match s with
  | EmptyString => EmptyString
  | String c s' =>
      String (if after_letter then lower_ascii c else Ref.upper_ascii c)
             (title_from (is_upper c || is_lower c) s')
  end.

Definition title (s : string) : string := title_from false s.

#[global] Instance text : Cli.Text :=
  {| Cli.format_str := format_str;
     Cli.replace := replace;
     Cli.title := title |}.

End RefText.

(** The worked ledger, typed at the command line. *)
Definition shell : list (string * Cli.args) :=
  [("2024-01-01T09:00:00", Cli.Add "btc" "Bitcoin");
   ("2024-01-02T09:00:00", Cli.Buy "btc" 1 50000 0);
   ("2024-01-03T09:00:00", Cli.Buy "btc" 1 70000 0);
   ("2024-01-04T09:00:00", Cli.Sell "btc" 0.5 80000 0);
   ("2024-01-05T09:00:00", Cli.Price "btc" 65000 "manual")].

(** * Properties *)

Unset Implicit Arguments.
Open Scope list_scope.

(** ** Facts on binary64 comparison and subtraction *)

Module FloatFacts.

Lemma Prim2SF_0 : Prim2SF 0 = S754_zero false.
Proof. reflexivity. Qed.

(** Case analysis on the class and the sign of [x]. *)
Ltac sf_cases x :=
  destruct (Prim2SF x) as [[|]|[|]| |[|] ? ?]; simpl;
  try discriminate; try congruence.

Lemma gt0_nonzero x : (0 <? x) = true -> (x =? 0) = false.
Proof.
  rewrite ltb_spec, eqb_spec, Prim2SF_0. unfold SFltb, SFeqb. sf_cases x.
Qed.

Lemma gt0_not_nan x : (0 <? x) = true -> is_nan x = false.
Proof.
  unfold is_nan. rewrite ltb_spec, eqb_spec, Prim2SF_0. unfold SFltb, SFeqb.
  sf_cases x.
  intros _. now rewrite Z.compare_refl, Pos.compare_cont_refl.
Qed.

Lemma gt0_ge0 x : (0 <? x) = true -> (0 <=? x) = true.
Proof.
  rewrite ltb_spec, leb_spec, Prim2SF_0. unfold SFltb, SFleb. sf_cases x.
Qed.

(** Comparing with a zero of either sign. *)
Lemma ltb_zero_r x y : (y =? 0) = true -> (x <? y) = (x <? 0).
Proof.
  rewrite !ltb_spec, eqb_spec, Prim2SF_0. unfold SFltb, SFeqb.
  destruct (Prim2SF y) as [s|s| |s m e]; simpl;
    try discriminate; try (destruct s; simpl; discriminate).
  intros _. destruct (Prim2SF x); reflexivity.
Qed.

Lemma leb_total x y :
  is_nan x = false -> is_nan y = false ->
  (x <=? y) = false -> (y <=? x) = true.
Proof.
  unfold is_nan. rewrite !leb_spec, !eqb_spec. unfold SFleb, SFeqb.
  destruct (Prim2SF x) as [s|s| |s m e], (Prim2SF y) as [s'|s'| |s' m' e'];
    simpl; try discriminate;
    try (destruct s; simpl; congruence); try (destruct s'; simpl; congruence);
    try (destruct s, s'; simpl; congruence).
  intros _ _. pose proof (Pos.compare_cont_antisym m m' Eq) as Hm. simpl in Hm.
  destruct s, s'; simpl; try congruence;
    rewrite (Z.compare_antisym e e'); destruct (e ?= e')%Z; simpl;
    try congruence; rewrite <- Hm;
    destruct (Pos.compare_cont Eq m m'); simpl; congruence.
Qed.

Lemma SFleb_trans x y z :
  SFleb x y = true -> SFleb y z = true -> SFleb x z = true.
Proof.
  unfold SFleb.
  destruct x as [sx|sx| |sx mx ex], y as [sy|sy| |sy my ey],
           z as [sz|sz| |sz mz ez]; simpl; try discriminate; try reflexivity;
    try (destruct sx; simpl; (discriminate || reflexivity));
    try (destruct sy; simpl; (discriminate || reflexivity));
    try (destruct sz; simpl; (discriminate || reflexivity));
    try (destruct sx, sy; simpl; (discriminate || reflexivity));
    try (destruct sx, sz; simpl; (discriminate || reflexivity));
    try (destruct sy, sz; simpl; (discriminate || reflexivity));
    try (destruct sx, sy, sz; simpl; (discriminate || reflexivity)).
  all: change PosDef.Pos.compare_cont with Pos.compare_cont.
  all: change (Pos.compare_cont Eq) with Pos.compare.
  all: destruct sx, sy, sz; simpl; try discriminate; try reflexivity.
  all: destruct (Z.compare_spec ex ey), (Z.compare_spec ey ez),
         (Z.compare_spec ex ez); try lia; try discriminate; try reflexivity;
       subst.
  all: destruct (Pos.compare_spec mx my), (Pos.compare_spec my mz),
         (Pos.compare_spec mx mz); simpl; try lia; try discriminate;
       try reflexivity.
Qed.

Lemma leb_trans x y z :
  (x <=? y) = true -> (y <=? z) = true -> (x <=? z) = true.
Proof. rewrite !leb_spec. apply SFleb_trans. Qed.

Lemma ltb_not_nan_r x y : (x <? y) = true -> is_nan y = false.
Proof.
  unfold is_nan. rewrite ltb_spec, eqb_spec. unfold SFltb, SFeqb.
  destruct (Prim2SF y) as [s|s| |s m e]; simpl;
    try reflexivity; try (destruct s; reflexivity).
  - destruct (Prim2SF x); discriminate.
  - intros _. rewrite Z.compare_refl, Pos.compare_cont_refl.
    destruct s; reflexivity.
Qed.

(** *** The sign of a difference *)

Lemma not_positive_ltb x :
  Ieee.not_positive (Prim2SF x) -> (0 <? x) = false.
Proof.
  rewrite ltb_spec, Prim2SF_0. unfold SFltb.
  destruct (Prim2SF x) as [s|s| |s m e]; simpl; try reflexivity;
    destruct s; simpl; tauto.
Qed.

Lemma binary_round_aux_neg mx ex lx :
  Ieee.not_positive (binary_round_aux prec emax true mx ex lx).
Proof.
  unfold binary_round_aux.
  destruct (shr_fexp prec emax mx ex lx) as [mrs' e'].
  destruct (shr_fexp prec emax _ e' loc_Exact) as [mrs'' e''].
  destruct (shr_m mrs''); [exact I| |exact I].
  destruct (e'' <=? emax - prec)%Z; exact I.
Qed.

Lemma binary_round_neg m e :
  Ieee.not_positive (binary_round prec emax true m e).
Proof.
  unfold binary_round.
  destruct (shl_align m e _) as [mz ez]. apply binary_round_aux_neg.
Qed.

Lemma binary_normalize_nonpos m e :
  (m <= 0)%Z -> Ieee.not_positive (binary_normalize prec emax m e false).
Proof.
  destruct m as [|p|p]; simpl; intros H; auto; [lia|].
  apply binary_round_neg.
Qed.

Lemma iter_xO m d : Z.pos (Pos.iter xO m d) = (Z.pos m * 2 ^ Z.pos d)%Z.
Proof.
  induction d as [|d IH] using Pos.peano_ind.
  - simpl. lia.
  - rewrite Pos.iter_succ, Pos2Z.inj_xO, IH, Pos2Z.inj_succ, Z.pow_succ_r; lia.
Qed.

Lemma shl_align_val m e e' :
  (e' <= e)%Z -> Z.pos (fst (shl_align m e e')) = (Z.pos m * 2 ^ (e - e'))%Z.
Proof.
  intros H. unfold shl_align.
  destruct (e' - e)%Z as [|d|d] eqn:E; simpl.
  - replace (e - e')%Z with 0%Z by lia. simpl. lia.
  - lia.
  - rewrite iter_xO. replace (e - e')%Z with (Z.pos d) by lia. reflexivity.
Qed.

Lemma digits2_bounds m :
  (2 ^ (Z.pos (digits2_pos m) - 1) <= Z.pos m < 2 ^ Z.pos (digits2_pos m))%Z.
Proof.
  induction m as [m IH|m IH|]; simpl digits2_pos;
    [rewrite Pos2Z.inj_succ; change (Z.pos m~1) with (2 * Z.pos m + 1)%Z
    |rewrite Pos2Z.inj_succ; change (Z.pos m~0) with (2 * Z.pos m)%Z
    |simpl; lia].
  all: pose proof (Pos2Z.is_pos (digits2_pos m)) as Hd.
  all: replace (Z.succ (Z.pos (digits2_pos m)) - 1)%Z
         with (Z.succ (Z.pos (digits2_pos m) - 1)) by lia.
  all: rewrite !Z.pow_succ_r by lia; lia.
Qed.

(** A mantissa in canonical form has at most [prec] digits, and exactly
    [prec] above the least exponent. *)
Lemma bounded_digits m e :
  bounded prec emax m e = true ->
  (Z.pos m < 2 ^ prec)%Z /\
  ((emin < e)%Z -> (2 ^ (prec - 1) <= Z.pos m)%Z) /\ (emin <= e)%Z.
Proof.
  unfold bounded, canonical_mantissa, fexp. intros H.
  apply andb_true_iff in H. destruct H as [H _]. apply Z.eqb_eq in H.
  pose proof (digits2_bounds m) as [Hl Hu].
  change IntDef.Z.max with Z.max in H.
  assert (Hd : (Z.pos (digits2_pos m) <= prec)%Z) by lia.
  split; [|split].
  - eapply Z.lt_le_trans; [exact Hu|]. apply Z.pow_le_mono_r; lia.
  - intros He. assert (Z.pos (digits2_pos m) = prec) by lia.
    rewrite <- H0. exact Hl.
  - lia.
Qed.

(** Of two canonical mantissas, the one with the smaller exponent is
    the smaller number. *)
Lemma canonical_lt m1 e1 m2 e2 :
  bounded prec emax m1 e1 = true -> bounded prec emax m2 e2 = true ->
  (e1 < e2)%Z -> (Z.pos m1 <= Z.pos m2 * 2 ^ (e2 - e1))%Z.
Proof.
  intros H1 H2 He.
  apply bounded_digits in H1, H2.
  destruct H1 as (Hu1 & _ & Hm1), H2 as (_ & Hl2 & _).
  specialize (Hl2 ltac:(lia)).
  assert (Hp : (2 ^ 1 <= 2 ^ (e2 - e1))%Z) by (apply Z.pow_le_mono_r; lia).
  change (2 ^ prec)%Z with (2 ^ (prec - 1) * 2 ^ 1)%Z in Hu1.
  nia.
Qed.

Lemma SFsub_not_positive x y :
  valid_binary x = true -> valid_binary y = true ->
  SFltb x y = true -> Ieee.not_positive (SFsub prec emax x y).
Proof.
  unfold SFltb.
  destruct x as [sx|sx| |sx mx ex], y as [sy|sy| |sy my ey]; simpl;
    try discriminate;
    try (destruct sx; simpl; (discriminate || tauto));
    try (destruct sy; simpl; (discriminate || tauto));
    try (destruct sx, sy; simpl; (discriminate || tauto)).
  intros Vx Vy Hlt. apply binary_normalize_nonpos.
  change IntDef.Z.min with Z.min.
  rewrite !shl_align_val by lia.
  assert (P1 : (0 < Z.pos mx * 2 ^ (ex - Z.min ex ey))%Z)
    by (apply Z.mul_pos_pos; [lia | apply Z.pow_pos_nonneg; lia]).
  assert (P2 : (0 < Z.pos my * 2 ^ (ey - Z.min ex ey))%Z)
    by (apply Z.mul_pos_pos; [lia | apply Z.pow_pos_nonneg; lia]).
  destruct sx, sy; simpl in Hlt; cbn [cond_Zopp]; try discriminate; try lia.
  - (* both negative *)
    destruct (Z.compare_spec ex ey) as [E|E|E]; try discriminate.
    + subst ey. rewrite Z.min_id, Z.sub_diag, Z.pow_0_r.
      change PosDef.Pos.compare_cont with Pos.compare_cont in Hlt.
      destruct (Pos.compare_cont Eq mx my) eqn:C; try discriminate.
      change ((mx ?= my)%positive = Gt) in C.
      apply Pos.compare_gt_iff in C. lia.
    + pose proof (@canonical_lt _ _ _ _ Vy Vx E).
      rewrite Z.min_r, Z.sub_diag, Z.pow_0_r by lia. lia.
  - (* both positive *)
    destruct (Z.compare_spec ex ey) as [E|E|E]; try discriminate.
    + subst ey. rewrite Z.min_id, Z.sub_diag, Z.pow_0_r.
      change PosDef.Pos.compare_cont with Pos.compare_cont in Hlt.
      destruct (Pos.compare_cont Eq mx my) eqn:C; try discriminate.
      change (mx < my)%positive in C. lia.
    + pose proof (@canonical_lt _ _ _ _ Vx Vy E).
      rewrite Z.min_l, Z.sub_diag, Z.pow_0_r by lia. lia.
Qed.

(** Taking a positive number away from one that is not positive. *)
Lemma sub_positive_not_positive t q :
  (0 <? t) = false -> (0 <? q) = true -> (0 <? t - q) = false.
Proof.
  rewrite !ltb_spec, Prim2SF_0. intros Ht Hq.
  rewrite <- Prim2SF_0, <- ltb_spec. apply not_positive_ltb.
  rewrite sub_spec. unfold SFltb in Ht, Hq.
  destruct (Prim2SF t) as [st|st| |st mt et],
           (Prim2SF q) as [sq|sq| |sq mq eq']; simpl in *;
    try discriminate; try exact I;
    try (destruct st; simpl in *; (discriminate || exact I));
    try (destruct sq; simpl in *; (discriminate || exact I));
    try (destruct st, sq; simpl in *; (discriminate || exact I)).
  destruct st, sq; simpl in *; try discriminate.
  apply binary_round_neg.
Qed.

(** Taking away more than there is never leaves a positive rest. *)
Lemma sub_not_positive t q : (t <? q) = true -> (0 <? t - q) = false.
Proof.
  rewrite ltb_spec. intros H. apply not_positive_ltb. rewrite sub_spec.
  apply SFsub_not_positive; auto using Prim2SF_valid.
Qed.

End FloatFacts.

(** ** Facts on SQLite values *)

Module SqlFacts.

Lemma real_number x : is_nan x = false -> Sql.real x = Some (Sql.stored x).
Proof. unfold Sql.real. now intros ->. Qed.

Lemma real_gt0 x : (0 <? x) = true -> Sql.real x = Some x.
Proof.
  intros H. unfold Sql.real, Sql.stored.
  now rewrite (FloatFacts.gt0_not_nan _ H), (FloatFacts.gt0_nonzero _ H).
Qed.

Lemma real_max0 x : Sql.real (Py.max 0 x) = Some (Py.max 0 x).
Proof.
  unfold Py.max. destruct (0 <? x) eqn:E.
  - now apply real_gt0.
  - reflexivity.
Qed.

Lemma real_not_null_number x :
  is_nan x = false -> Sql.real_not_null x = Ok (Sql.stored x).
Proof. unfold Sql.real_not_null. intros H. now rewrite real_number. Qed.

Lemma real_not_null_nan x :
  is_nan x = true -> Sql.real_not_null x = Raise IntegrityError.
Proof. unfold Sql.real_not_null, Sql.real. now intros ->. Qed.

Lemma mul_wf a b : Sql.wf (Sql.mul a b).
Proof.
  destruct a as [x|], b as [y|]; simpl; auto.
  destruct (is_nan (x * y)) eqn:E; simpl; auto.
Qed.

Lemma le_total a b :
  Sql.wf a -> Sql.wf b -> Sql.le a b = false -> Sql.le b a = true.
Proof.
  destruct a as [x|], b as [y|]; simpl; try discriminate; auto.
  apply FloatFacts.leb_total.
Qed.

Lemma le_trans a b c :
  Sql.le a b = true -> Sql.le b c = true -> Sql.le a c = true.
Proof.
  destruct a as [x|], b as [y|], c as [z|]; simpl; try discriminate; auto.
  apply FloatFacts.leb_trans.
Qed.

(** [x < y] against a stored [y] is [x < y] against [y]. *)
Lemma ltb_stored x y : (x <? Sql.stored y) = (x <? y).
Proof.
  unfold Sql.stored. destruct (y =? 0) eqn:E; auto.
  symmetry. now apply FloatFacts.ltb_zero_r.
Qed.

End SqlFacts.

(** ** Facts on ORDER BY *)

Section OrderByFacts.

Context {A K : Type} (le : K -> K -> bool) (key : A -> K).

Let ge (a b : A) : Prop := le (key b) (key a) = true.

Lemma insert_desc_perm x l :
  Permutation (Stmt.insert_desc le key x l) (x :: l).
Proof.
  induction l as [|y l IH]; simpl; auto.
  destruct (le (key y) (key x)); auto.
  rewrite IH. apply perm_swap.
Qed.

Lemma order_by_desc_perm l : Permutation (Stmt.order_by_desc le key l) l.
Proof.
  induction l as [|x l IH]; simpl; auto.
  rewrite insert_desc_perm. now constructor.
Qed.

Hypothesis le_total :
  forall a b, le (key a) (key b) = false -> le (key b) (key a) = true.

Lemma insert_desc_sorted x l :
  Sorted ge l -> Sorted ge (Stmt.insert_desc le key x l).
Proof.
  induction l as [|y l IH]; simpl; intros H.
  - repeat constructor.
  - destruct (le (key y) (key x)) eqn:E.
    + constructor; auto.
    + inversion H as [|? ? Hs Hh]; subst.
      constructor; auto.
      destruct l as [|z l]; simpl.
      * constructor. now apply le_total.
      * destruct (le (key z) (key x)); constructor.
        -- now apply le_total.
        -- now inversion Hh.
Qed.

Lemma order_by_desc_sorted l : Sorted ge (Stmt.order_by_desc le key l).
Proof.
  induction l as [|x l IH]; simpl.
  - constructor.
  - now apply insert_desc_sorted.
Qed.

Hypothesis le_trans :
  forall a b c, le (key a) (key b) = true -> le (key b) (key c) = true ->
                le (key a) (key c) = true.

Lemma order_by_desc_strongly_sorted l :
  StronglySorted ge (Stmt.order_by_desc le key l).
Proof.
  apply Sorted_StronglySorted; [|apply order_by_desc_sorted].
  intros a b c Hab Hbc. unfold ge in *. eauto.
Qed.

End OrderByFacts.

(** ** Facts on the order of TEXT *)

Module TextFacts.




End TextFacts.

(** ** record_transaction *)

Section RecordTransactionFacts.

Context {B : Py.Builtins}.

(** The database after the INSERT of [record_transaction]. *)
Let inserted now symbol tx_type quantity price fee exchange db : Db :=
  {| holdings := holdings db;
     transactions :=
       transactions db
       ++ [recorded_row now symbol tx_type quantity price fee exchange db];
     prices := prices db;
     seq_holdings := seq_holdings db;
     seq_transactions := (seq_transactions db + 1)%Z;
     seq_prices := seq_prices db |}.

Lemma history_inserted now symbol tx_type quantity price fee exchange db :
  history symbol (inserted now symbol tx_type quantity price fee exchange db)
  = history symbol db
    ++ [recorded_row now symbol tx_type quantity price fee exchange db].
Proof.
  unfold history, Stmt.select_transactions, inserted. simpl.
  rewrite filter_app. simpl. now rewrite String.eqb_refl.
Qed.

Lemma guarded_truediv tc tq :
  (if 0 <? tq then Py.truediv tc tq else Ok 0)
  = Ok (if 0 <? tq then tc / tq else 0).
Proof.
  destruct (0 <? tq) eqn:E; auto.
  unfold Py.truediv. now rewrite (FloatFacts.gt0_nonzero _ E).
Qed.

(** [record_transaction] on numbers: it cannot raise. *)
Lemma record_transaction_number now symbol tx_type quantity price fee
    exchange db :
  is_nan quantity = false -> is_nan price = false ->
  record_transaction now symbol tx_type quantity price fee exchange db
  = let db1 := inserted now symbol tx_type quantity price fee exchange db in
    let agg := fold_left accumulate (history symbol db1) (0, 0) in
    Ok (Stmt.update_aggregate
          (Py.max 0 (fst agg))
          (Py.round (if 0 <? fst agg then snd agg / fst agg else 0) 8)
          (Py.upper symbol) db1,
        Transaction.make now (Py.upper symbol) tx_type quantity price fee
                         exchange).
Proof.
  intros Hq Hp. unfold record_transaction, Stmt.insert_transaction.
  simpl. rewrite (SqlFacts.real_not_null_number _ Hq),
    (SqlFacts.real_not_null_number _ Hp). simpl.
  fold (recorded_row now symbol tx_type quantity price fee exchange db).
  fold (inserted now symbol tx_type quantity price fee exchange db).
  fold (history symbol
          (inserted now symbol tx_type quantity price fee exchange db)).
  destruct (fold_left accumulate _ (0, 0)) as [tq tc]. simpl.
  now rewrite guarded_truediv.
Qed.

(** [record_transaction] on a NaN: the INSERT fails. *)
Lemma record_transaction_nan now symbol tx_type quantity price fee
    exchange db :
  is_nan quantity || is_nan price = true ->
  record_transaction now symbol tx_type quantity price fee exchange db
  = Raise IntegrityError.
Proof.
  intros H. unfold record_transaction, Stmt.insert_transaction. simpl.
  destruct (is_nan quantity) eqn:Hq.
  - now rewrite (SqlFacts.real_not_null_nan _ Hq).
  - rewrite (SqlFacts.real_not_null_number _ Hq). simpl in *.
    now rewrite (SqlFacts.real_not_null_nan _ H).
Qed.

(** On a history of buys and sells the loop computes the two sums of
    the specification. *)
Lemma accumulate_ledger rows :
  Forall Ledger.well_typed rows ->
  forall q c,
    fold_left accumulate rows (q, c)
    = (fold_left
         (fun acc r =>
            if Ledger.is_buy r then acc + TransactionRow.quantity r
            else if Ledger.is_sell r then acc - TransactionRow.quantity r
            else acc) rows q,
       fold_left
         (fun acc r =>
            if Ledger.is_buy r
            then acc + TransactionRow.quantity r * TransactionRow.price_usd r
            else acc) rows c).
Proof.
  induction 1 as [|r rows Hr _ IH]; intros q c; simpl; auto.
  rewrite <- IH. f_equal.
  unfold Ledger.is_buy, Ledger.is_sell.
  destruct Hr as [E | E]; rewrite E; reflexivity.
Qed.

Lemma in_update_aggregate tq ac symbol db h :
  In h (holdings (Stmt.update_aggregate tq ac symbol db)) ->
  HoldingRow.symbol h = symbol ->
  HoldingRow.total_qty h = Sql.real tq /\ HoldingRow.avg_cost h = Sql.real ac.
Proof.
  simpl. rewrite in_map_iff. intros (r & Hr & _) Hs.
  unfold Stmt.has_symbol in Hr.
  destruct (String.eqb (HoldingRow.symbol r) symbol) eqn:E.
  - subst h. simpl. auto.
  - subst h. apply String.eqb_neq in E. contradiction.
Qed.

(** The SELECT of [record_transaction] returns the history of the
    symbol and nothing else. *)
Lemma select_transactions_of_symbol symbol db :
  Stmt.select_transactions symbol db
  = Ledger.of_symbol symbol (transactions db).
Proof.
  unfold Stmt.select_transactions.
  induction (transactions db) as [|r l IH]; simpl; auto.
  now rewrite String.eqb_sym, IH.
Qed.


Lemma of_symbol_in symbol txs r :
  In r (Ledger.of_symbol symbol txs) -> In r txs.
Proof.
  induction txs as [|t txs IH]; simpl; auto.
  destruct (String.eqb symbol (TransactionRow.symbol t)); simpl; tauto.
Qed.

(** The loop does not tell a row from the row read as a sell. *)
Lemma accumulate_as_sell rows acc :
  fold_left accumulate (map Ledger.as_sell rows) acc
  = fold_left accumulate rows acc.
Proof.
  revert acc. induction rows as [|r rows IH]; intros acc; simpl; auto.
  rewrite IH. f_equal. destruct acc as [q c].
  unfold accumulate, Ledger.as_sell.
  destruct (String.eqb (TransactionRow.tx_type r) "buy") eqn:E.
  - now rewrite E.
  - reflexivity.
Qed.

Lemma as_sell_typed rows :
  Forall Ledger.well_typed (map Ledger.as_sell rows).
Proof.
  apply Forall_forall. intros r' Hr. apply in_map_iff in Hr.
  destruct Hr as (r & <- & _). unfold Ledger.well_typed, Ledger.as_sell.
  destruct (String.eqb (TransactionRow.tx_type r) "buy") eqn:E.
  - left. now apply String.eqb_eq.
  - right. reflexivity.
Qed.

(** The cells that [record_transaction] stores of a history of buys and
    sells. *)
Lemma aggregate_cells rows :
  Forall Ledger.well_typed rows ->
  let agg := fold_left accumulate rows (0, 0) in
  Sql.real (Py.max 0 (fst agg))
  = Some (Ledger.clamp (Ledger.total_qty rows)) /\
  Sql.real (Py.round (if 0 <? fst agg then snd agg / fst agg else 0) 8)
  = Sql.real (Ledger.avg_cost rows).
Proof.
  intros Hwt. cbv zeta. rewrite (accumulate_ledger _ Hwt). cbn [fst snd].
  split.
  - apply SqlFacts.real_max0.
  - unfold Ledger.avg_cost, Ledger.total_qty, Ledger.total_cost.
    match goal with |- context [0 <? ?x] => destruct (0 <? x) end; auto.
    now rewrite Py.round_zero.
Qed.

(** What [record_transaction] leaves on numbers: the row appended, and
    in every holding of the symbol the result of the loop over the
    history of the symbol. *)
Lemma record_transaction_stores now symbol tx_type quantity price fee
    exchange db :
  is_nan quantity = false -> is_nan price = false ->
  exists db' tx,
    record_transaction now symbol tx_type quantity price fee exchange db
    = Ok (db', tx) /\
    transactions db'
    = transactions db
      ++ [recorded_row now symbol tx_type quantity price fee exchange db] /\
    forall h, In h (holdings db') ->
      HoldingRow.symbol h = Py.upper symbol ->
      let agg :=
        fold_left accumulate
          (Ledger.of_symbol (Py.upper symbol) (transactions db')) (0, 0) in
      HoldingRow.total_qty h = Sql.real (Py.max 0 (fst agg)) /\
      HoldingRow.avg_cost h
      = Sql.real (Py.round (if 0 <? fst agg then snd agg / fst agg else 0)
                           8).
Proof.
  intros Hq Hp.
  rewrite (record_transaction_number _ _ _ _ _ _ _ _ Hq Hp). cbv zeta.
  eexists _, _. split; [reflexivity|]. split; [reflexivity|].
  intros h Hin Hs.
  destruct (in_update_aggregate _ _ _ _ _ Hin Hs) as [Etq Eac].
  unfold history in Etq, Eac.
  rewrite select_transactions_of_symbol in Etq, Eac.
  split; assumption.
Qed.

End RecordTransactionFacts.

Section RecordTransaction.

Context {B : Py.Builtins}.


(** The [else] branch of the loop. *)
Lemma accumulate_else (acc : float * float) (r : TransactionRow.t) :
  TransactionRow.tx_type r <> "buy" ->
  accumulate acc r = (fst acc - TransactionRow.quantity r, snd acc).
Proof.
  intros H. destruct acc as [q c]. unfold accumulate.
  apply String.eqb_neq in H. now rewrite H.
Qed.

(** C9.  [record_transaction] treats every row of the history whose
    [tx_type] is any string other than exactly ["buy"] as a sell,
    ["SELL"], ["Buy"] or any other text, the row it has just written
    among them: the aggregate it stores in the holding of the symbol is
    that of the history with each such row read as a sell, its
    quantity taken off [total_qty] and nothing added to [total_cost]. *)
Theorem record_transaction_non_buy
    now symbol tx_type quantity price fee exchange db :
  is_nan quantity = false -> is_nan price = false ->
  exists db' tx,
    record_transaction now symbol tx_type quantity price fee exchange db
    = Ok (db', tx) /\
    transactions db'
    = transactions db
      ++ [recorded_row now symbol tx_type quantity price fee exchange db] /\
    forall h, In h (holdings db') ->
      HoldingRow.symbol h = Py.upper symbol ->
      let rows :=
        map Ledger.as_sell
            (Ledger.of_symbol (Py.upper symbol) (transactions db')) in
      HoldingRow.total_qty h
      = Some (Ledger.clamp (Ledger.total_qty rows)) /\
      HoldingRow.avg_cost h = Sql.real (Ledger.avg_cost rows).
Proof.
  intros Hq Hp.
  destruct (record_transaction_stores now symbol tx_type quantity price fee
              exchange db Hq Hp) as (db' & tx & E & Et & Hh).
  exists db', tx. split; [exact E|]. split; [exact Et|].
  intros h Hin Hs. cbv zeta.
  destruct (Hh h Hin Hs) as [Etq Eac].
  destruct (aggregate_cells _ (as_sell_typed
              (Ledger.of_symbol (Py.upper symbol) (transactions db'))))
    as [Ctq Cac].
  rewrite accumulate_as_sell in Ctq, Cac.
  now rewrite Etq, Eac, Ctq, Cac.
Qed.

(** C3, as the code has it.  [record_transaction] checks neither the
    sign of [quantity] nor [tx_type]: whenever [quantity] and [price]
    are numbers it succeeds, for every [tx_type], and appends exactly
    one row to [transactions].  It raises only when [quantity] or
    [price] is NaN, the IntegrityError of the NOT NULL columns, and
    then nothing is written. *)
Theorem record_transaction_unvalidated
    now symbol tx_type quantity price fee exchange db :
  if is_nan quantity || is_nan price
  then record_transaction now symbol tx_type quantity price fee exchange db
       = Raise IntegrityError
  else exists db' tx,
      record_transaction now symbol tx_type quantity price fee exchange db
      = Ok (db', tx) /\
      transactions db'
      = transactions db
        ++ [recorded_row now symbol tx_type quantity price fee exchange db].
Proof.
  destruct (is_nan quantity || is_nan price) eqn:E.
  - now apply record_transaction_nan.
  - apply orb_false_iff in E. destruct E as [Hq Hp].
    rewrite (record_transaction_number _ _ _ _ _ _ _ _ Hq Hp).
    eexists _, _. split; reflexivity.
Qed.

End RecordTransaction.

(** ** The sign of total_qty *)

Section Nonnegative.

Context {B : Py.Builtins}.

Let inv (db : Db) : Prop :=
  Forall (fun h => nonneg_cell (HoldingRow.total_qty h)) (holdings db).

Lemma max0_nonneg x : nonneg_cell (Sql.real (Py.max 0 x)).
Proof.
  rewrite SqlFacts.real_max0. eexists. split; [reflexivity|].
  unfold Py.max. destruct (0 <? x) eqn:E.
  - now apply FloatFacts.gt0_ge0.
  - reflexivity.
Qed.

Lemma inv_add_holding now symbol name db :
  inv db -> inv (fst (add_holding now symbol name db)).
Proof.
  unfold inv. simpl. intros H.
  destruct (existsb _ (holdings db)); auto.
  apply Forall_app. split; auto. constructor; [|constructor].
  simpl. exists 0. split; reflexivity.
Qed.

Lemma inv_update_aggregate tq ac symbol db :
  inv db -> inv (Stmt.update_aggregate (Py.max 0 tq) ac symbol db).
Proof.
  unfold inv. simpl. intros H. apply Forall_map.
  eapply Forall_impl; [|exact H]. intros h Hh. simpl.
  destruct (Stmt.has_symbol symbol h); auto. simpl. apply max0_nonneg.
Qed.

Lemma inv_update_current_price price symbol db :
  inv db -> inv (Stmt.update_current_price price symbol db).
Proof.
  unfold inv. simpl. intros H. apply Forall_map.
  eapply Forall_impl; [|exact H]. intros h Hh. simpl.
  destruct (Stmt.has_symbol symbol h); auto.
Qed.

Lemma inv_exec db c : inv db -> inv (exec db c).
Proof.
  intros H. destruct c as [now s n | now s ty q p fee ex | now s p src];
    simpl.
  - now apply inv_add_holding.
  - destruct (is_nan q || is_nan p) eqn:E.
    + now rewrite record_transaction_nan.
    + apply orb_false_iff in E. destruct E as [Hq Hp].
      rewrite (record_transaction_number _ _ _ _ _ _ _ _ Hq Hp).
      cbv zeta. apply inv_update_aggregate. exact H.
  - unfold update_price, Stmt.insert_price. simpl.
    destruct (Sql.real_not_null p); simpl; auto.
    apply inv_update_current_price. exact H.
Qed.

Lemma inv_run cs db : inv db -> inv (fold_left exec cs db).
Proof.
  revert db. induction cs as [|c cs IH]; simpl; intros db H; auto.
  apply IH. now apply inv_exec.
Qed.

(** C2.  Whatever operations are run on a new database, the
    [total_qty] of every stored holding is a number [x] with [0 <= x].  A sell of more than the tracked quantity of the symbol
    (the clamped net quantity of its history, the [total_qty] that
    [record_transaction] stores for it) does not raise: the transaction is appended and the
    [total_qty] of the symbol's holding is 0. *)
Theorem total_qty_never_negative :
  (forall cs h, In h (holdings (run cs)) ->
     nonneg_cell (HoldingRow.total_qty h)) /\
  (forall now symbol quantity price fee exchange db,
     is_nan price = false ->
     (tracked_qty symbol db <? quantity) = true ->
     exists db' tx,
       record_transaction now symbol "sell" quantity price fee exchange db
       = Ok (db', tx) /\
       transactions db'
       = transactions db
         ++ [recorded_row now symbol "sell" quantity price fee exchange db] /\
       forall h, In h (holdings db') ->
         HoldingRow.symbol h = Py.upper symbol ->
         HoldingRow.total_qty h = Some 0).
Proof.
  split.
  - intros cs h Hin.
    assert (H : inv (run cs)) by (apply inv_run; constructor).
    unfold inv in H. rewrite Forall_forall in H. now apply H.
  - intros now symbol quantity price fee exchange db Hp Hlt.
    pose proof (FloatFacts.ltb_not_nan_r _ _ Hlt) as Hq.
    rewrite (record_transaction_number _ _ _ _ _ _ _ _ Hq Hp). cbv zeta.
    eexists _, _. split; [reflexivity|]. split; [reflexivity|].
    intros h Hin Hs.
    destruct (in_update_aggregate _ _ _ _ _ Hin Hs) as [Etq _].
    rewrite Etq, history_inserted, fold_left_app. simpl.
    unfold tracked_qty in Hlt.
    destruct (fold_left accumulate (history symbol db) (0, 0)) as [tq tc].
    simpl in *. unfold Py.max in *.
    assert (E : (0 <? tq - Sql.stored quantity) = false).
    { destruct (0 <? tq) eqn:Epos.
      - apply FloatFacts.sub_not_positive.
        now rewrite SqlFacts.ltb_stored.
      - apply FloatFacts.sub_positive_not_positive; auto.
        now rewrite SqlFacts.ltb_stored. }
    now rewrite E.
Qed.

End Nonnegative.

(** ** add_holding *)

Section AddHolding.

Context {B : Py.Builtins}.

Lemma existsb_has_symbol symbol l :
  existsb (Stmt.has_symbol symbol) l = true <->
  exists h, In h l /\ HoldingRow.symbol h = symbol.
Proof.
  rewrite existsb_exists. unfold Stmt.has_symbol.
  split; intros (h & Hin & E); exists h; split; auto;
    now apply String.eqb_eq.
Qed.

(** The INSERT OR IGNORE of a symbol that is stored is ignored. *)
Lemma insert_ignored h db :
  (exists r, In r (holdings db) /\ HoldingRow.symbol r = Holding.symbol h) ->
  holdings (Stmt.insert_or_ignore_holding h db) = holdings db.
Proof.
  intros H. apply existsb_has_symbol in H. simpl. now rewrite H.
Qed.

(** C7.  [add_holding] with a symbol that a stored holding has already
    changes no row: the [holdings] table, with the name, [created_at]
    and every other field of each holding, and the two other tables
    are as before. *)
Theorem add_holding_existing now symbol name db :
  (exists h, In h (holdings db) /\ HoldingRow.symbol h = Py.upper symbol) ->
  let db' := fst (add_holding now symbol name db) in
  holdings db' = holdings db /\
  transactions db' = transactions db /\
  prices db' = prices db.
Proof.
  intros H. cbv zeta. unfold add_holding. cbn [fst].
  rewrite insert_ignored by exact H. repeat split.
Qed.

(** Registration makes the symbol known. *)
Lemma add_holding_registers now symbol name db :
  exists h, In h (holdings (fst (add_holding now symbol name db))) /\
            HoldingRow.symbol h = Py.upper symbol.
Proof.
  apply existsb_has_symbol. simpl.
  destruct (existsb _ (holdings db)) eqn:E; auto.
  rewrite existsb_app. simpl. unfold Stmt.has_symbol at 2. simpl.
  rewrite String.eqb_refl. apply orb_true_r.
Qed.

(** Registering a symbol twice: the second call changes no holding. *)
Lemma add_holding_idempotent now symbol name now' name' db :
  let db1 := fst (add_holding now symbol name db) in
  holdings (fst (add_holding now' symbol name' db1)) = holdings db1.
Proof.
  cbv zeta. unfold add_holding at 1. cbn [fst].
  apply insert_ignored. apply add_holding_registers.
Qed.

(** C10.  [add_holding] returns the [Holding] it has just constructed,
    with zero [total_qty], [avg_cost] and [current_price] and the
    current time as [created_at], whether or not the symbol was
    registered.  On a registered symbol the stored row stays as it was
    and no row is added for the symbol, so that the returned
    [created_at] and aggregate can differ from the stored ones. *)
Theorem add_holding_returns_fresh :
  (forall now symbol name db,
     snd (add_holding now symbol name db)
     = {| Holding.symbol := Py.upper symbol;
          Holding.name := name;
          Holding.total_qty := 0;
          Holding.avg_cost := 0;
          Holding.current_price := 0;
          Holding.created_at := now;
          Holding.id := None |}) /\
  (forall now symbol name db h,
     In h (holdings db) -> HoldingRow.symbol h = Py.upper symbol ->
     holdings (fst (add_holding now symbol name db)) = holdings db) /\
  (exists now symbol name db h,
     In h (holdings (fst (add_holding now symbol name db))) /\
     HoldingRow.symbol h = Holding.symbol (snd (add_holding now symbol name db)) /\
     HoldingRow.created_at h
     <> Holding.created_at (snd (add_holding now symbol name db)) /\
     HoldingRow.total_qty h
     <> Some (Holding.total_qty (snd (add_holding now symbol name db)))).
Proof.
  split; [reflexivity|]. split.
  - intros now symbol name db h Hin Hs.
    unfold add_holding. cbn [fst]. apply insert_ignored. now exists h.
  - set (h := {| HoldingRow.id := 1;
                 HoldingRow.symbol := Py.upper "btc";
                 HoldingRow.name := "Bitcoin";
                 HoldingRow.total_qty := Some 2;
                 HoldingRow.avg_cost := Some 60000;
                 HoldingRow.current_price := Some 0;
                 HoldingRow.created_at := "2024-01-01T00:00:00" |}).
    exists "2024-06-01T00:00:00", "btc", "Bitcoin",
      {| holdings := [h]; transactions := []; prices := [];
         seq_holdings := 1; seq_transactions := 0; seq_prices := 0 |}, h.
    simpl. unfold Stmt.has_symbol at 1. simpl. rewrite String.eqb_refl.
    simpl. repeat split; auto.
    + discriminate.
    + intros H.
      apply (f_equal (fun c => match c with
                               | Some x => x =? 0
                               | None => true
                               end)) in H.
      vm_compute in H. discriminate H.
Qed.

End AddHolding.

(** ** update_price *)

Section UpdatePrice.

Context {B : Py.Builtins}.

(** C8.  [update_price] with a price that is a number appends exactly
    one row to [prices], with that price, and makes it the
    [current_price] of the holding of the symbol.  The holding's
    [total_qty], [avg_cost], name and [created_at], every other
    holding, the transactions and the earlier price rows are
    unchanged. *)
Theorem update_price_frame now symbol price source db :
  is_nan price = false ->
  exists db',
    update_price now symbol price source db
    = Ok (db', PriceRecord.make now (Py.upper symbol) price source) /\
    prices db' = prices db ++ [observed_row now symbol price source db] /\
    PriceRow.price_usd (observed_row now symbol price source db)
    = Sql.stored price /\
    transactions db' = transactions db /\
    Forall2 (repriced symbol price) (holdings db) (holdings db').
Proof.
  intros Hp. unfold update_price, Stmt.insert_price. simpl.
  rewrite (SqlFacts.real_not_null_number _ Hp). simpl.
  eexists. split; [reflexivity|]. simpl.
  repeat split.
  induction (holdings db) as [|h l IH]; simpl; constructor; auto.
  unfold repriced, Stmt.has_symbol.
  destruct (String.eqb (HoldingRow.symbol h) (Py.upper symbol)) eqn:E;
    simpl.
  - rewrite (SqlFacts.real_number _ Hp). apply String.eqb_eq in E.
    repeat split; auto. intros; contradiction.
  - apply String.eqb_neq in E. repeat split; auto. intros; contradiction.
Qed.

End UpdatePrice.

(** ** get_portfolio and calculate_pnl *)

Section Valuation.

Context {B : Py.Builtins}.

Lemma mapM_ok {X Y} (f : X -> result Y) (P : X -> Y -> Prop) xs :
  Forall (fun x => exists y, f x = Ok y /\ P x y) xs ->
  exists ys, Py.mapM f xs = Ok ys /\ Forall2 P xs ys.
Proof.
  induction 1 as [|x xs (y & Ey & Py') _ (ys & Eys & Pys)]; simpl.
  - exists []. split; constructor.
  - rewrite Ey, Eys. simpl. exists (y :: ys). split; auto.
Qed.

Lemma mapM_raise {X Y} (f : X -> result Y) xs e :
  Py.mapM f xs = Raise e -> exists x, In x xs /\ f x = Raise e.
Proof.
  induction xs as [|x xs IH]; simpl; [discriminate|].
  destruct (f x) as [y|e'] eqn:E; simpl.
  - destruct (Py.mapM f xs) as [ys|e'']; simpl; [discriminate|].
    intros [= ->]. destruct IH as (x' & Hin & Hx'); eauto.
  - intros [= ->]. eauto.
Qed.

(** The percentage of [annotate] divides by a number it has found to
    be greater than zero. *)
Lemma guarded_percent pnl cb :
  (if 0 <? cb
   then q <- Py.truediv pnl cb ;; Ok (q * 100)
   else Ok 0)
  = Ok (if 0 <? cb then pnl / cb * 100 else 0).
Proof.
  destruct (0 <? cb) eqn:E; auto.
  unfold Py.truediv. now rewrite (FloatFacts.gt0_nonzero _ E).
Qed.

Lemma annotate_number h q c a :
  HoldingRow.total_qty h = Some q ->
  HoldingRow.current_price h = Some c ->
  HoldingRow.avg_cost h = Some a ->
  annotate h
  = Ok {| Position.row := h;
          Position.market_value := Py.round (q * c) 2;
          Position.cost_basis := Py.round (q * a) 2;
          Position.unrealized_pnl := Py.round (q * c - q * a) 2;
          Position.pnl_pct :=
            Py.round (if 0 <? q * a
                      then (q * c - q * a) / (q * a) * 100
                      else 0) 2 |}.
Proof.
  intros Eq Ec Ea. unfold annotate. rewrite Eq, Ec, Ea. simpl.
  now rewrite guarded_percent.
Qed.

Lemma annotate_raise h e : annotate h = Raise e -> e = TypeError.
Proof.
  unfold annotate.
  destruct (HoldingRow.total_qty h) as [q|],
           (HoldingRow.current_price h) as [c|],
           (HoldingRow.avg_cost h) as [a|]; simpl; try congruence.
  rewrite guarded_percent. simpl. discriminate.
Qed.

Lemma get_portfolio_raise db e : get_portfolio db = Raise e -> e = TypeError.
Proof.
  unfold get_portfolio. intros H.
  apply mapM_raise in H. destruct H as (h & _ & H).
  now apply annotate_raise in H.
Qed.

Lemma value_key_total a b :
  Sql.le (Stmt.value_key a) (Stmt.value_key b) = false ->
  Sql.le (Stmt.value_key b) (Stmt.value_key a) = true.
Proof. apply SqlFacts.le_total; apply SqlFacts.mul_wf. Qed.

Lemma select_portfolio_perm db :
  Permutation (Stmt.select_portfolio db) (filter held (holdings db)).
Proof. apply order_by_desc_perm. Qed.

Lemma StronglySorted_rows (R : HoldingRow.t -> HoldingRow.t -> Prop) ps :
  StronglySorted R (map Position.row ps) ->
  StronglySorted (fun p p' => R (Position.row p) (Position.row p')) ps.
Proof.
  induction ps as [|p ps IH]; simpl; intros H; constructor;
    inversion H as [|? ? Hs Hf]; subst; auto.
  rewrite Forall_map in Hf. exact Hf.
Qed.

Lemma StronglySorted_impl_in {A} (R R' : A -> A -> Prop) l :
  (forall x y, In x l -> In y l -> R x y -> R' x y) ->
  StronglySorted R l -> StronglySorted R' l.
Proof.
  intros H Hs. induction Hs as [|a l Hs IH Hf]; constructor.
  - apply IH. intros x y Hx Hy. apply H; now right.
  - rewrite Forall_forall in *. intros y Hy.
    apply H; [now left | now right | now apply Hf].
Qed.

(** The order of the sort key, on the product written out. *)
Lemma value_key_desc p p' :
  valued p -> valued p' ->
  Sql.le (Stmt.value_key (Position.row p')) (Stmt.value_key (Position.row p))
  = true ->
  value_desc p p'.
Proof.
  intros (q & c & a & Eq & Ec & _) (q' & c' & a' & Eq' & Ec' & _).
  unfold value_desc, Stmt.value_key, Sql.mul, Sql.le.
  rewrite Eq, Ec, Eq', Ec'.
  destruct (is_nan (q' * c')); [now left|].
  destruct (is_nan (q * c)); [discriminate|]. now right.
Qed.

(** C4.  When every held asset has a price and an average cost,
    [get_portfolio] returns: the rows of exactly the holdings with
    [total_qty > 0], in descending order of [total_qty * current_price]
    (the product of each row is at least that of every later row, a
    product that is no number standing last),
    each with [market_value = total_qty * current_price],
    [cost_basis = total_qty * avg_cost],
    [unrealized_pnl = market_value - cost_basis] and
    [pnl_pct = unrealized_pnl / cost_basis * 100] when [cost_basis > 0]
    and [0] otherwise, each rounded to 2 places. *)
Theorem get_portfolio_spec db :
  priced db ->
  exists ps,
    get_portfolio db = Ok ps /\
    Permutation (map Position.row ps) (filter held (holdings db)) /\
    StronglySorted value_desc ps /\
    Forall valued ps.
Proof.
  intros Hpriced. unfold get_portfolio.
  destruct (mapM_ok annotate
              (fun h p => Position.row p = h /\ valued p)
              (Stmt.select_portfolio db)) as (ps & Eps & Hps).
  { rewrite Forall_forall. intros h Hin.
    apply (Permutation_in _ (select_portfolio_perm db)) in Hin.
    apply filter_In in Hin. destruct Hin as [Hin Hheld].
    destruct (Hpriced h Hin Hheld) as [Hc Ha].
    unfold held in Hheld.
    destruct (HoldingRow.total_qty h) as [q|] eqn:Eq; [|discriminate].
    destruct (HoldingRow.current_price h) as [c|] eqn:Ec; [|contradiction].
    destruct (HoldingRow.avg_cost h) as [a|] eqn:Ea; [|contradiction].
    eexists. split; [apply (annotate_number h q c a); assumption|].
    split; [reflexivity|]. exists q, c, a. simpl. repeat split; auto. }
  exists ps. split; [exact Eps|].
  assert (Hrows : map Position.row ps = Stmt.select_portfolio db).
  { clear Eps. induction Hps as [|h p hs ps' [E _] _ IH]; simpl; congruence. }
  assert (Hvalued : Forall valued ps).
  { clear Eps Hrows. induction Hps as [|h p hs ps' [_ V] _ IH]; auto. }
  split; [|split; [|exact Hvalued]].
  - rewrite Hrows. apply select_portfolio_perm.
  - rewrite Forall_forall in Hvalued.
    apply StronglySorted_impl_in with
      (R := fun p p' => Sql.le (Stmt.value_key (Position.row p'))
                               (Stmt.value_key (Position.row p)) = true).
    { intros p p' Hp Hp'. apply value_key_desc; auto. }
    apply StronglySorted_rows with
      (R := fun h h' => Sql.le (Stmt.value_key h') (Stmt.value_key h) = true).
    rewrite Hrows. apply order_by_desc_strongly_sorted.
    + apply value_key_total.
    + intros a b c. apply SqlFacts.le_trans.
Qed.

Lemma guarded_total_percent pnl cost :
  (if Py.truthy cost
   then q <- Py.truediv pnl cost ;; Ok (q * 100)
   else Ok 0)
  = Ok (if Py.truthy cost then pnl / cost * 100 else 0).
Proof.
  unfold Py.truthy, Py.truediv. destruct (cost =? 0); reflexivity.
Qed.

(** [calculate_pnl] returns when [get_portfolio] does. *)
Lemma pnl_figures_ok db ps :
  get_portfolio db = Ok ps ->
  exists f, pnl_figures db = Ok f /\
    PnlFigures.portfolio f = ps /\
    PnlFigures.total_cost f = Py.sum (map Position.cost_basis ps) /\
    PnlFigures.pct f
    = (if Py.truthy (PnlFigures.total_cost f)
       then PnlFigures.total_pnl f / PnlFigures.total_cost f * 100
       else 0).
Proof.
  intros E. unfold pnl_figures. rewrite E. simpl.
  rewrite guarded_total_percent. simpl.
  eexists. split; [reflexivity|]. simpl. auto.
Qed.

(** C5.  [calculate_pnl] never raises ZeroDivisionError.  On an empty
    portfolio it returns the totals of zero and no position; and the
    overall percentage is 0 whenever the total cost basis is 0. *)
Theorem calculate_pnl_no_zero_division :
  (forall db, calculate_pnl db <> Raise ZeroDivisionError) /\
  (forall db, get_portfolio db = Ok [] ->
     calculate_pnl db = Ok zero_summary) /\
  calculate_pnl empty_db = Ok zero_summary /\
  (forall db f, pnl_figures db = Ok f ->
     (PnlFigures.total_cost f =? 0) = true -> PnlFigures.pct f = 0).
Proof.
  assert (Hempty : forall db, get_portfolio db = Ok [] ->
                     calculate_pnl db = Ok zero_summary).
  { intros db E. unfold calculate_pnl, pnl_figures. rewrite E. simpl.
    rewrite Py.sum_nil. reflexivity. }
  split; [|split; [exact Hempty|split]].
  - intros db H. unfold calculate_pnl in H.
    destruct (get_portfolio db) as [ps|e] eqn:E.
    + destruct (pnl_figures_ok db ps E) as (f & Ef & _).
      rewrite Ef in H. discriminate.
    + unfold pnl_figures in H. rewrite E in H. simpl in H.
      apply get_portfolio_raise in E. congruence.
  - apply Hempty. reflexivity.
  - intros db f Ef Hz.
    destruct (get_portfolio db) as [ps|e] eqn:E.
    + destruct (pnl_figures_ok db ps E) as (f' & Ef' & _ & _ & Hpct).
      assert (f' = f) by congruence. subst f'.
      rewrite Hpct. unfold Py.truthy. now rewrite Hz.
    + unfold pnl_figures in Ef. rewrite E in Ef. discriminate.
Qed.

End Valuation.

(** ** export_report *)

Module JsonFacts.

Import Json.

Lemma app_string_assoc (a b c : string) : ((a ++ b) ++ c = a ++ b ++ c)%string.
Proof. induction a; simpl; congruence. Qed.



(** *** Characters *)

(** A digit is no other character that the scanner looks for. *)
Lemma digit_other c :
  is_digit c = true ->
  Ascii.eqb c quote = false /\ Ascii.eqb c "{" = false /\
  Ascii.eqb c "[" = false /\ Ascii.eqb c "]" = false /\
  Ascii.eqb c "}" = false /\ Ascii.eqb c "-" = false /\
  Ascii.eqb "n" c = false /\ Ascii.eqb "t" c = false /\
  Ascii.eqb "f" c = false /\ Ascii.eqb "N" c = false /\
  Ascii.eqb "I" c = false /\ Ascii.eqb "-" c = false /\
  is_ws c = false.
Proof.
  destruct c as [[] [] [] [] [] [] [] []]; intros H;
    try discriminate H; repeat split; reflexivity.
Qed.

(** *** Numbers *)











Lemma number_head_ws s : number_head s -> skip_ws s = s.
Proof.
  destruct s as [|c s]; [intros []|]. intros [H|[-> _]].
  - destruct (digit_other c H) as (_&_&_&_&_&_&_&_&_&_&_&_&E).
    simpl. now rewrite E.
  - reflexivity.
Qed.

(** *** Integers *)







(** *** Strings *)

Lemma escape_below c s :
  (N_of_ascii c <? 128)%N = true ->
  escape (String c s) = (escape_ascii c ++ escape s)%string.
Proof. intros H. cbn [escape]. now rewrite H. Qed.

(** An escaped character is read back as the character. *)
Lemma scan_escape_ascii c tail :
  (N_of_ascii c <? 128)%N = true ->
  scan_string (escape_ascii c ++ tail)
  = push (String c EmptyString) (scan_string tail).
Proof.
  destruct c as [[] [] [] [] [] [] [] []]; intros H;
    try discriminate H; reflexivity.
Qed.

Lemma scan_escape s rest :
  ascii_only s = true ->
  scan_string (escape s ++ String quote rest) = Some (s, rest).
Proof.
  induction s as [|c s IH]; simpl ascii_only; intros H.
  - reflexivity.
  - apply andb_prop in H. destruct H as [Hc Hs].
    rewrite (escape_below _ _ Hc), app_string_assoc, (scan_escape_ascii _ _ Hc).
    now rewrite (IH Hs).
Qed.

Lemma scan_string_text s rest :
  ascii_only s = true ->
  scan_string (escape s ++ String quote EmptyString ++ rest) = Some (s, rest).
Proof. apply scan_escape. Qed.

(** *** White space *)



(** *** The floats that are words *)





(** *** Heads of values *)



Section RoundTrip.

Context {FT : Py.FloatText}.

















End RoundTrip.

Section RoundTrip.

Context {FT : Py.FloatText}.













End RoundTrip.

End JsonFacts.

Section ExportReport.

Context {B : Py.Builtins} {F : Py.Files} {FT : Py.FloatText}.




End ExportReport.

(** ** The worked ledger *)

Example scenario_holdings : holdings Scenario.db = [Scenario.btc].
Proof. vm_compute. reflexivity. Qed.

Example scenario_tracked : tracked_qty "btc" Scenario.db = 1.5.
Proof. vm_compute. reflexivity. Qed.

Example scenario_portfolio : get_portfolio Scenario.db = Ok [Scenario.position].
Proof. vm_compute. reflexivity. Qed.

Example scenario_summary :
  calculate_pnl Scenario.db
  = Ok {| PnlSummary.total_market_value := "$97,500.00";
          PnlSummary.total_cost_basis := "$120,000.00";
          PnlSummary.unrealized_pnl := "$-22,500.00";
          PnlSummary.pnl_percentage := "-18.75%";
          PnlSummary.winning_positions := 0;
          PnlSummary.losing_positions := 1;
          PnlSummary.total_positions := 1 |}.
Proof. vm_compute. reflexivity. Qed.

Example scenario_oversell :
  holdings (exec Scenario.db
              (RecordTransaction "2024-01-06T09:00:00" "btc" "sell"
                                 5 80000 0 "manual"))
  = [{| HoldingRow.id := 1;
        HoldingRow.symbol := "BTC";
        HoldingRow.name := "Bitcoin";
        HoldingRow.total_qty := Some 0;
        HoldingRow.avg_cost := Some 0;
        HoldingRow.current_price := Some 65000;
        HoldingRow.created_at := "2024-01-01T09:00:00" |}].
Proof. vm_compute. reflexivity. Qed.

(** The row typed ["SELL"] is written as it is, and the quarter is
    taken off the 1.5 BTC: the cost of 120000 is spread over 1.25. *)
Example scenario_shouted :
  match record_transaction "2024-01-06T09:00:00" "btc" "SELL" 0.25 64000 0
                           "manual" Scenario.db with
  | Ok (db', _) =>
      transactions db' = transactions Scenario.db ++ [Scenario.shouted] /\
      map (fun h => (HoldingRow.total_qty h, HoldingRow.avg_cost h))
          (holdings db')
      = [(Some 1.25, Some 96000)]
  | Raise _ => False
  end.
Proof. vm_compute. split; reflexivity. Qed.

(** ** The ledger of two assets *)

Example two_assets_portfolio :
  get_portfolio TwoAssets.db = Ok [TwoAssets.bbb; TwoAssets.aaa].
Proof. vm_compute. reflexivity. Qed.

(** A buy of the first asset counts its own rows only: 2 units at an
    average of 10, and the thousand units of the other stay. *)
Example two_assets_buy :
  match record_transaction "2024-02-04T09:00:00" "aaa" "buy" 1 12 0 "manual"
                           TwoAssets.db with
  | Ok (db', _) =>
      map (fun h => (HoldingRow.symbol h, HoldingRow.total_qty h,
                     HoldingRow.avg_cost h))
          (holdings db')
      = [("AAA", Some 2, Some 10); ("BBB", Some 1000, Some 5)]
  | Raise _ => False
  end.
Proof. vm_compute. reflexivity. Qed.

(** A report into a directory that is not there. *)
Example scenario_export_refused :
  export_report "2024-01-07T09:00:00" "reports/crypto_report.json"
                Scenario.db
  = Raise OSError /\
  export_report "2024-01-07T09:00:00" "" Scenario.db = Raise OSError.
Proof. split; vm_compute; reflexivity. Qed.

(** ** The theorems at the worked ledger *)


(** Selling 5 when 1.5 are tracked. *)
Lemma total_qty_never_negative_witness :
  exists db' tx,
    record_transaction "2024-01-06T09:00:00" "btc" "sell" 5 80000 0 "manual"
                       Scenario.db
    = Ok (db', tx) /\
    transactions db'
    = transactions Scenario.db
      ++ [recorded_row "2024-01-06T09:00:00" "btc" "sell" 5 80000 0 "manual"
                       Scenario.db] /\
    forall h, In h (holdings db') ->
      HoldingRow.symbol h = Py.upper "btc" ->
      HoldingRow.total_qty h = Some 0.
Proof.
  apply (proj2 total_qty_never_negative); vm_compute; reflexivity.
Defined.

(** C3 as stated fails: a buy of [-1] and a transaction of the unknown
    type ["hodl"] are both accepted and written. *)
Lemma record_transaction_accepts_invalid :
  (exists tx,
     record_transaction "2024-01-02T09:00:00" "btc" "buy" (-1) 50000 0
                        "manual" empty_db
     = Ok ({| holdings := [];
              transactions :=
                [{| TransactionRow.id := 1;
                    TransactionRow.symbol := "BTC";
                    TransactionRow.tx_type := "buy";
                    TransactionRow.quantity := -1;
                    TransactionRow.price_usd := 50000;
                    TransactionRow.fee_usd := Some 0;
                    TransactionRow.exchange := "manual";
                    TransactionRow.tx_date := "2024-01-02T09:00:00" |}];
              prices := [];
              seq_holdings := 0; seq_transactions := 1; seq_prices := 0 |},
           tx)) /\
  (exists tx,
     record_transaction "2024-01-02T09:00:00" "btc" "hodl" 1 50000 0
                        "manual" empty_db
     = Ok ({| holdings := [];
              transactions :=
                [{| TransactionRow.id := 1;
                    TransactionRow.symbol := "BTC";
                    TransactionRow.tx_type := "hodl";
                    TransactionRow.quantity := 1;
                    TransactionRow.price_usd := 50000;
                    TransactionRow.fee_usd := Some 0;
                    TransactionRow.exchange := "manual";
                    TransactionRow.tx_date := "2024-01-02T09:00:00" |}];
              prices := [];
              seq_holdings := 0; seq_transactions := 1; seq_prices := 0 |},
           tx)).
Proof. split; eexists; vm_compute; reflexivity. Qed.

(** The two assets: the second registered is worth more and is listed
    first. *)
Lemma get_portfolio_spec_witness :
  exists ps,
    get_portfolio TwoAssets.db = Ok ps /\
    Permutation (map Position.row ps) (filter held (holdings TwoAssets.db)) /\
    StronglySorted value_desc ps /\
    Forall valued ps.
Proof.
  apply get_portfolio_spec.
  intros h Hin _. vm_compute in Hin.
  destruct Hin as [<- | [<- | []]]; split; discriminate.
Defined.

Lemma calculate_pnl_no_zero_division_witness :
  calculate_pnl (B := Ref.builtins) empty_db
  = Ok {| PnlSummary.total_market_value := "$0.00";
          PnlSummary.total_cost_basis := "$0.00";
          PnlSummary.unrealized_pnl := "$+0.00";
          PnlSummary.pnl_percentage := "+0.00%";
          PnlSummary.winning_positions := 0;
          PnlSummary.losing_positions := 0;
          PnlSummary.total_positions := 0 |}.
Proof.
  exact (proj1 (proj2 (@calculate_pnl_no_zero_division Ref.builtins))
               empty_db eq_refl).
Defined.


(** Registering BTC again, under another name. *)
Lemma add_holding_existing_witness :
  let db' := fst (add_holding "2024-01-08T09:00:00" "btc" "Bitcoin Core"
                              Scenario.db) in
  holdings db' = holdings Scenario.db /\
  transactions db' = transactions Scenario.db /\
  prices db' = prices Scenario.db.
Proof.
  apply add_holding_existing.
  exists Scenario.btc. split; [vm_compute; left|]; reflexivity.
Defined.

Lemma update_price_frame_witness :
  exists db',
    update_price "2024-01-08T09:00:00" "btc" 66000 "manual" Scenario.db
    = Ok (db', PriceRecord.make "2024-01-08T09:00:00" (Py.upper "btc") 66000
                                "manual") /\
    prices db'
    = prices Scenario.db
      ++ [observed_row "2024-01-08T09:00:00" "btc" 66000 "manual" Scenario.db] /\
    PriceRow.price_usd
      (observed_row "2024-01-08T09:00:00" "btc" 66000 "manual" Scenario.db)
    = Sql.stored 66000 /\
    transactions db' = transactions Scenario.db /\
    Forall2 (repriced "btc" 66000) (holdings Scenario.db) (holdings db').
Proof. apply update_price_frame. reflexivity. Defined.

(** A transaction typed ["SELL"] on the worked ledger. *)
Lemma record_transaction_non_buy_witness :
  exists db' tx,
    record_transaction "2024-01-06T09:00:00" "btc" "SELL" 0.25 64000 0
                       "manual" Scenario.db
    = Ok (db', tx) /\
    transactions db'
    = transactions Scenario.db
      ++ [recorded_row "2024-01-06T09:00:00" "btc" "SELL" 0.25 64000 0
                       "manual" Scenario.db] /\
    forall h, In h (holdings db') ->
      HoldingRow.symbol h = Py.upper "btc" ->
      let rows :=
        map Ledger.as_sell
            (Ledger.of_symbol (Py.upper "btc") (transactions db')) in
      HoldingRow.total_qty h
      = Some (Ledger.clamp (Ledger.total_qty rows)) /\
      HoldingRow.avg_cost h = Sql.real (Ledger.avg_cost rows).
Proof. apply record_transaction_non_buy; reflexivity. Defined.

(** * Further properties of the store *)

Section Store.

Context {B : Py.Builtins}.

(** The three shapes of a step: nothing written, or the statements of
    the command applied. *)
Lemma exec_record_transaction now symbol tx_type quantity price fee
    exchange db :
  exec db (RecordTransaction now symbol tx_type quantity price fee exchange)
  = db \/
  exists tq ac,
    exec db (RecordTransaction now symbol tx_type quantity price fee exchange)
    = Stmt.update_aggregate tq ac (Py.upper symbol)
        {| holdings := holdings db;
           transactions :=
             transactions db
             ++ [recorded_row now symbol tx_type quantity price fee exchange
                              db];
           prices := prices db;
           seq_holdings := seq_holdings db;
           seq_transactions := seq_transactions db + 1;
           seq_prices := seq_prices db |}.
Proof.
  simpl. destruct (is_nan quantity || is_nan price) eqn:E.
  - left. now rewrite record_transaction_nan.
  - right. apply orb_false_iff in E. destruct E as [Hq Hp].
    rewrite (record_transaction_number _ _ _ _ _ _ _ _ Hq Hp).
    cbv zeta. eexists _, _. reflexivity.
Qed.

Lemma exec_update_price now symbol price source db :
  exec db (UpdatePrice now symbol price source) = db \/
  exec db (UpdatePrice now symbol price source)
  = Stmt.update_current_price price (Py.upper symbol)
      {| holdings := holdings db;
         transactions := transactions db;
         prices := prices db ++ [observed_row now symbol price source db];
         seq_holdings := seq_holdings db;
         seq_transactions := seq_transactions db;
         seq_prices := seq_prices db + 1 |}.
Proof.
  simpl. unfold update_price, Stmt.insert_price. simpl.
  destruct (is_nan price) eqn:E.
  - left. now rewrite (SqlFacts.real_not_null_nan _ E).
  - right. now rewrite (SqlFacts.real_not_null_number _ E).
Qed.

Lemma identity_update_aggregate tq ac symbol db :
  map identity (holdings (Stmt.update_aggregate tq ac symbol db))
  = map identity (holdings db).
Proof.
  simpl. rewrite map_map. apply map_ext. intros h.
  now destruct (Stmt.has_symbol symbol h).
Qed.

Lemma identity_update_current_price price symbol db :
  map identity (holdings (Stmt.update_current_price price symbol db))
  = map identity (holdings db).
Proof.
  simpl. rewrite map_map. apply map_ext. intros h.
  now destruct (Stmt.has_symbol symbol h).
Qed.

(** One step appends at most one row to one of the two logs and at most
    one holding, and rewrites the identity of none. *)
Lemma exec_extends db c :
  exists txs pxs more,
    transactions (exec db c) = transactions db ++ txs /\
    prices (exec db c) = prices db ++ pxs /\
    map identity (holdings (exec db c)) = map identity (holdings db) ++ more.
Proof.
  destruct c as [now s n | now s ty q p fee ex | now s p src].
  - exists [], []. simpl.
    destruct (existsb _ (holdings db)).
    + exists []. now rewrite !List.app_nil_r.
    + exists (map identity
                [Stmt.holding_row (seq_holdings db + 1)
                   (Holding.make now (Py.upper s) n)]).
      now rewrite map_app, !List.app_nil_r.
  - destruct (exec_record_transaction now s ty q p fee ex db)
      as [-> | (tq & ac & ->)].
    + exists [], [], []. now rewrite !List.app_nil_r.
    + exists [recorded_row now s ty q p fee ex db], [], [].
      rewrite identity_update_aggregate, !List.app_nil_r. repeat split.
  - destruct (exec_update_price now s p src db) as [-> | ->].
    + exists [], [], []. now rewrite !List.app_nil_r.
    + exists [], [observed_row now s p src db], [].
      rewrite identity_update_current_price, !List.app_nil_r. repeat split.
Qed.

Lemma run_app cs cs' : run (cs ++ cs') = fold_left exec cs' (run cs).
Proof. unfold run. apply fold_left_app. Qed.

Lemma fold_exec_extends cs db :
  exists txs pxs more,
    transactions (fold_left exec cs db) = transactions db ++ txs /\
    prices (fold_left exec cs db) = prices db ++ pxs /\
    map identity (holdings (fold_left exec cs db))
    = map identity (holdings db) ++ more.
Proof.
  revert db. induction cs as [|c cs IH]; intros db; simpl.
  - exists [], [], []. now rewrite !List.app_nil_r.
  - destruct (IH (exec db c)) as (txs & pxs & more & Et & Ep & Eh).
    destruct (exec_extends db c) as (txs0 & pxs0 & more0 & Et0 & Ep0 & Eh0).
    exists (txs0 ++ txs), (pxs0 ++ pxs), (more0 ++ more).
    rewrite Et, Ep, Eh, Et0, Ep0, Eh0, !List.app_assoc. repeat split.
Qed.

(** X1.  The two logs are append-only: whatever operations follow, the
    transactions and the price records stored so far stay, unaltered and
    in place, at the head of their tables. *)
Theorem logs_append_only cs cs' :
  exists txs pxs,
    transactions (run (cs ++ cs')) = transactions (run cs) ++ txs /\
    prices (run (cs ++ cs')) = prices (run cs) ++ pxs.
Proof.
  rewrite run_app.
  destruct (fold_exec_extends cs' (run cs)) as (txs & pxs & _ & Et & Ep & _).
  now exists txs, pxs.
Qed.

(** X2.  No operation deletes a holding or rewrites its rowid, symbol,
    name or [created_at]: whatever operations follow, the holdings
    stored so far keep their identity and their place. *)
Theorem holdings_identity_kept cs cs' :
  exists more,
    map identity (holdings (run (cs ++ cs')))
    = map identity (holdings (run cs)) ++ more.
Proof.
  rewrite run_app.
  destruct (fold_exec_extends cs' (run cs)) as (_ & _ & more & _ & _ & Eh).
  now exists more.
Qed.

End Store.

Section StoreInvariants.

Context {B : Py.Builtins}.

(** What holds of a new database and is kept by every operation holds
    after every sequence of operations. *)
Lemma run_invariant (P : Db -> Prop) :
  P empty_db -> (forall db c, P db -> P (exec db c)) ->
  forall cs, P (run cs).
Proof.
  intros H0 Hstep cs. unfold run. generalize empty_db H0.
  induction cs as [|c cs IH]; simpl; auto.
Qed.

Lemma symbols_update_aggregate tq ac symbol db :
  map HoldingRow.symbol (holdings (Stmt.update_aggregate tq ac symbol db))
  = map HoldingRow.symbol (holdings db).
Proof.
  simpl. rewrite map_map. apply map_ext. intros h.
  now destruct (Stmt.has_symbol symbol h).
Qed.

Lemma symbols_update_current_price price symbol db :
  map HoldingRow.symbol (holdings (Stmt.update_current_price price symbol db))
  = map HoldingRow.symbol (holdings db).
Proof.
  simpl. rewrite map_map. apply map_ext. intros h.
  now destruct (Stmt.has_symbol symbol h).
Qed.

Lemma existsb_has_symbol_false symbol l :
  existsb (Stmt.has_symbol symbol) l = false ->
  ~ In symbol (map HoldingRow.symbol l).
Proof.
  intros E Hin. apply in_map_iff in Hin. destruct Hin as (h & Hs & Hin).
  assert (H : existsb (Stmt.has_symbol symbol) l = true).
  { apply existsb_has_symbol. now exists h. }
  congruence.
Qed.

(** X3.  The symbol is a key of [holdings]: after any sequence of
    operations no two stored holdings have the same symbol. *)
Theorem holdings_symbol_unique cs :
  NoDup (map HoldingRow.symbol (holdings (run cs))).
Proof.
  apply run_invariant with
    (P := fun db => NoDup (map HoldingRow.symbol (holdings db))).
  - constructor.
  - intros db c H.
    destruct c as [now s n | now s ty q p fee ex | now s p src].
    + simpl. destruct (existsb _ (holdings db)) eqn:E; auto.
      rewrite map_app. apply NoDup_app; auto.
      * repeat constructor. intros [].
      * intros a Ha [<- | []]. simpl in Ha.
        now apply existsb_has_symbol_false in E.
    + destruct (exec_record_transaction now s ty q p fee ex db)
        as [-> | (tq & ac & ->)]; auto.
      now rewrite symbols_update_aggregate.
    + destruct (exec_update_price now s p src db) as [-> | ->]; auto.
      now rewrite symbols_update_current_price.
Qed.

Lemma rowids_succ n : rowids (S n) = rowids n ++ [Z.of_nat n + 1]%Z.
Proof.
  unfold rowids. rewrite seq_S, map_app. simpl.
  do 2 f_equal. lia.
Qed.

Lemma StronglySorted_snoc l x :
  StronglySorted Z.lt l -> Forall (fun i => (i < x)%Z) l ->
  StronglySorted Z.lt (l ++ [x]).
Proof.
  induction 1 as [|a l Hs IH Ha]; simpl; intros Hx.
  - repeat constructor.
  - inversion Hx; subst. constructor; auto.
    apply Forall_app. split; auto.
Qed.

Lemma ids_update_aggregate tq ac symbol db :
  map HoldingRow.id (holdings (Stmt.update_aggregate tq ac symbol db))
  = map HoldingRow.id (holdings db).
Proof.
  simpl. rewrite map_map. apply map_ext. intros h.
  now destruct (Stmt.has_symbol symbol h).
Qed.

Lemma ids_update_current_price price symbol db :
  map HoldingRow.id (holdings (Stmt.update_current_price price symbol db))
  = map HoldingRow.id (holdings db).
Proof.
  simpl. rewrite map_map. apply map_ext. intros h.
  now destruct (Stmt.has_symbol symbol h).
Qed.

(** The rowids of a database and its AUTOINCREMENT counters. *)
Let numbered (db : Db) : Prop :=
  (map TransactionRow.id (transactions db)
   = rowids (List.length (transactions db)) /\
   seq_transactions db = Z.of_nat (List.length (transactions db))) /\
  (map PriceRow.id (prices db) = rowids (List.length (prices db)) /\
   seq_prices db = Z.of_nat (List.length (prices db))) /\
  (StronglySorted Z.lt (map HoldingRow.id (holdings db)) /\
   Forall (fun i => (1 <= i <= seq_holdings db)%Z)
          (map HoldingRow.id (holdings db)) /\
   (0 <= seq_holdings db)%Z).

Lemma numbered_exec db c : numbered db -> numbered (exec db c).
Proof.
  intros ((Ht & Hst) & (Hp & Hsp) & (Hh & Hb & H0)).
  destruct c as [now s n | now s ty q p fee ex | now s p src].
  - split; [|split]; [split; assumption | split; assumption |].
    simpl. destruct (existsb _ (holdings db)).
    + repeat split; auto; try lia.
      eapply Forall_impl; [|exact Hb]. simpl. intros; lia.
    + rewrite map_app. simpl. repeat split; try lia.
      * apply StronglySorted_snoc; auto.
        eapply Forall_impl; [|exact Hb]. simpl. intros; lia.
      * apply Forall_app. split.
        -- eapply Forall_impl; [|exact Hb]. simpl. intros; lia.
        -- repeat constructor; lia.
  - destruct (exec_record_transaction now s ty q p fee ex db)
      as [-> | (tq & ac & ->)].
    + repeat split; assumption.
    + split; [|split]; [| split; assumption |].
      * simpl. rewrite map_app, List.length_app, Nat.add_1_r, rowids_succ.
        simpl. rewrite Ht, Hst. split; [reflexivity|lia].
      * rewrite ids_update_aggregate. simpl. repeat split; assumption.
  - destruct (exec_update_price now s p src db) as [-> | ->].
    + repeat split; assumption.
    + split; [|split]; [split; assumption | |].
      * simpl. rewrite map_app, List.length_app, Nat.add_1_r, rowids_succ.
        simpl. rewrite Hp, Hsp. split; [reflexivity|lia].
      * rewrite ids_update_current_price. simpl. repeat split; assumption.
Qed.

(** X4.  Rowids are assigned in increasing order and never reused:
    after any sequence of operations the transactions and the price
    records are numbered [1 .. n] in the order they were written, and
    the rowids of the holdings are positive and strictly increasing. *)
Theorem rowids_autoincrement cs :
  map TransactionRow.id (transactions (run cs))
  = rowids (List.length (transactions (run cs))) /\
  map PriceRow.id (prices (run cs))
  = rowids (List.length (prices (run cs))) /\
  StronglySorted Z.lt (map HoldingRow.id (holdings (run cs))) /\
  Forall (fun i => (1 <= i)%Z) (map HoldingRow.id (holdings (run cs))).
Proof.
  destruct (run_invariant numbered) with (cs := cs)
    as ((Ht & _) & (Hp & _) & (Hh & Hb & _)).
  - repeat split; try constructor; reflexivity.
  - apply numbered_exec.
  - repeat split; auto.
    eapply Forall_impl; [|exact Hb]. simpl. intros; lia.
Qed.

End StoreInvariants.

(** * Further properties of the ledger operations *)

Section LedgerOperations.

Context {B : Py.Builtins}.

(** An UPDATE whose WHERE clause matches no row changes none. *)
Lemma update_unmatched (f : HoldingRow.t -> HoldingRow.t) symbol l :
  (forall h, In h l -> HoldingRow.symbol h <> symbol) ->
  map (fun r => if Stmt.has_symbol symbol r then f r else r) l = l.
Proof.
  intros H. rewrite <- (map_id l) at 2. apply map_ext_in. intros h Hin.
  unfold Stmt.has_symbol.
  destruct (String.eqb (HoldingRow.symbol h) symbol) eqn:E; auto.
  apply String.eqb_eq in E. now apply H in Hin.
Qed.

(** X5.  The symbol of a transaction or of a price need not be
    registered: the row is written all the same, and the table of
    holdings is left exactly as it was. *)
Theorem unregistered_symbol_accepted now symbol db :
  unregistered symbol db ->
  (forall tx_type quantity price fee exchange,
     is_nan quantity = false -> is_nan price = false ->
     exists db' tx,
       record_transaction now symbol tx_type quantity price fee exchange db
       = Ok (db', tx) /\
       holdings db' = holdings db /\
       transactions db'
       = transactions db
         ++ [recorded_row now symbol tx_type quantity price fee exchange db]) /\
  (forall price source,
     is_nan price = false ->
     exists db' rec,
       update_price now symbol price source db = Ok (db', rec) /\
       holdings db' = holdings db /\
       prices db' = prices db ++ [observed_row now symbol price source db]).
Proof.
  intros Hun. split.
  - intros ty q p fee ex Hq Hp.
    rewrite (record_transaction_number _ _ _ _ _ _ _ _ Hq Hp). cbv zeta.
    eexists _, _. split; [reflexivity|]. split; [|reflexivity].
    simpl. now apply update_unmatched.
  - intros p src Hp. unfold update_price, Stmt.insert_price. simpl.
    rewrite (SqlFacts.real_not_null_number _ Hp). simpl.
    eexists _, _. split; [reflexivity|]. split; [|reflexivity].
    simpl. now apply update_unmatched.
Qed.

(** X6.  [record_transaction] writes the two aggregates of the holding
    of its symbol and nothing else of the holdings: every holding keeps
    its rowid, symbol, name, [created_at] and [current_price], a holding
    of another symbol is untouched, and no price record is written. *)
Theorem record_transaction_frame
    now symbol tx_type quantity price fee exchange db :
  is_nan quantity = false -> is_nan price = false ->
  exists db' tx,
    record_transaction now symbol tx_type quantity price fee exchange db
    = Ok (db', tx) /\
    prices db' = prices db /\
    Forall2 (reaggregated symbol) (holdings db) (holdings db').
Proof.
  intros Hq Hp.
  rewrite (record_transaction_number _ _ _ _ _ _ _ _ Hq Hp). cbv zeta.
  eexists _, _. split; [reflexivity|]. split; [reflexivity|].
  simpl. induction (holdings db) as [|h l IH]; simpl; constructor; auto.
  unfold reaggregated, Stmt.has_symbol.
  destruct (String.eqb (HoldingRow.symbol h) (Py.upper symbol)) eqn:E.
  - apply String.eqb_eq in E. repeat split. intros; contradiction.
  - repeat split.
Qed.

(** The loop reads the type, the quantity and the price of a row. *)
Lemma accumulate_reads acc r r' :
  TransactionRow.tx_type r = TransactionRow.tx_type r' ->
  TransactionRow.quantity r = TransactionRow.quantity r' ->
  TransactionRow.price_usd r = TransactionRow.price_usd r' ->
  accumulate acc r = accumulate acc r'.
Proof. intros Ht Hq Hp. unfold accumulate. now rewrite Ht, Hq, Hp. Qed.

(** X7.  The fee and the exchange of a transaction are recorded and
    nothing more: whether [record_transaction] raises, and the holdings
    it leaves, are the same whatever fee and exchange are given. *)
Theorem fee_and_exchange_not_counted
    now symbol tx_type quantity price fee exchange fee' exchange' db :
  holdings_after
    (record_transaction now symbol tx_type quantity price fee exchange db)
  = holdings_after
      (record_transaction now symbol tx_type quantity price fee' exchange' db).
Proof.
  destruct (is_nan quantity || is_nan price) eqn:E.
  - now rewrite !record_transaction_nan.
  - apply orb_false_iff in E. destruct E as [Hq Hp].
    rewrite !(record_transaction_number _ _ _ _ _ _ _ _ Hq Hp). cbv zeta.
    rewrite !history_inserted, !fold_left_app. cbn [fold_left].
    rewrite (accumulate_reads _
               (recorded_row now symbol tx_type quantity price fee exchange db)
               (recorded_row now symbol tx_type quantity price fee' exchange'
                             db)) by reflexivity.
    reflexivity.
Qed.

(** X8.  A price that is no number is refused: [update_price] raises
    the IntegrityError of the NOT NULL column, writing nothing, exactly
    when the price is NaN. *)
Theorem update_price_refuses_nan now symbol price source db :
  update_price now symbol price source db = Raise IntegrityError
  <-> is_nan price = true.
Proof.
  unfold update_price, Stmt.insert_price. simpl.
  destruct (is_nan price) eqn:E.
  - rewrite (SqlFacts.real_not_null_nan _ E). simpl. tauto.
  - rewrite (SqlFacts.real_not_null_number _ E). simpl.
    split; discriminate.
Qed.

Lemma set_current_price_twice p p' symbol l :
  map (fun r => if Stmt.has_symbol symbol r
                then Stmt.set_current_price p' r else r)
      (map (fun r => if Stmt.has_symbol symbol r
                     then Stmt.set_current_price p r else r) l)
  = map (fun r => if Stmt.has_symbol symbol r
                  then Stmt.set_current_price p' r else r) l.
Proof.
  rewrite map_map. apply map_ext. intros h. unfold Stmt.has_symbol.
  destruct (String.eqb (HoldingRow.symbol h) symbol) eqn:E; simpl;
    now rewrite E.
Qed.

(** X9.  The last price wins: two price updates of a symbol in a row
    leave the holdings as the second alone does. *)
Theorem update_price_last_wins now symbol price source now' price' source' db :
  is_nan price' = false ->
  holdings (exec (exec db (UpdatePrice now symbol price source))
                 (UpdatePrice now' symbol price' source'))
  = holdings (exec db (UpdatePrice now' symbol price' source')).
Proof.
  intros Hp'.
  assert (Hsnd : forall d,
            holdings (exec d (UpdatePrice now' symbol price' source'))
            = map (fun r => if Stmt.has_symbol (Py.upper symbol) r
                            then Stmt.set_current_price price' r else r)
                  (holdings d)).
  { intros d. simpl. unfold update_price, Stmt.insert_price. simpl.
    now rewrite (SqlFacts.real_not_null_number _ Hp'). }
  rewrite !Hsnd.
  destruct (exec_update_price now symbol price source db) as [-> | ->]; auto.
  simpl. apply set_current_price_twice.
Qed.

End LedgerOperations.

(** ** Closing a position *)

Module CancelFacts.

(** What is added to nothing and taken away again leaves nothing
    positive. *)
Lemma add_sub_not_positive x : (0 <? (0 + x) - x) = false.
Proof.
  apply FloatFacts.not_positive_ltb.
  rewrite sub_spec, add_spec, FloatFacts.Prim2SF_0.
  destruct (Prim2SF x) as [s|s| |s m e]; try (destruct s; exact I).
  - exact I.
  - unfold SF64add, SF64sub, SFadd, SFsub.
    rewrite Z.sub_diag. exact I.
Qed.

End CancelFacts.

Section ClosingPosition.

Context {B : Py.Builtins}.

(** X10.  Buying a quantity of an asset with no history and selling the
    same quantity closes the position: the holding of the symbol is left
    with a [total_qty] and an [avg_cost] of 0, and out of the
    portfolio. *)
Theorem buy_then_sell_closes
    now symbol quantity price fee exchange now' price' fee' exchange' db :
  history symbol db = [] ->
  is_nan quantity = false -> is_nan price = false -> is_nan price' = false ->
  forall h,
    In h (holdings
            (exec (exec db (RecordTransaction now symbol "buy" quantity price
                                              fee exchange))
                  (RecordTransaction now' symbol "sell" quantity price'
                                     fee' exchange'))) ->
    HoldingRow.symbol h = Py.upper symbol ->
    HoldingRow.total_qty h = Some 0 /\
    HoldingRow.avg_cost h = Some 0 /\
    held h = false.
Proof.
  intros Hhist Hq Hp Hp' h. simpl.
  rewrite (record_transaction_number _ _ _ _ _ _ _ _ Hq Hp). cbv zeta.
  rewrite (record_transaction_number _ _ _ _ _ _ _ _ Hq Hp'). cbv zeta.
  intros Hin Hs.
  destruct (in_update_aggregate _ _ _ _ _ Hin Hs) as [Etq Eac].
  clear Hin.
  rewrite history_inserted in Etq, Eac.
  change (history symbol (Stmt.update_aggregate ?a ?b ?c ?d))
    with (history symbol d) in Etq, Eac.
  rewrite history_inserted, Hhist in Etq, Eac.
  cbn [app fold_left accumulate recorded_row Stmt.transaction_row
       TransactionRow.tx_type TransactionRow.quantity TransactionRow.price_usd
       Transaction.tx_type Transaction.make String.eqb Ascii.eqb Bool.eqb
       fst snd] in Etq, Eac.
  rewrite CancelFacts.add_sub_not_positive in Eac.
  unfold Py.max in Etq. rewrite CancelFacts.add_sub_not_positive in Etq.
  rewrite Py.round_zero in Eac.
  unfold held. rewrite Etq, Eac. repeat split.
Qed.

End ClosingPosition.

(** * Further properties of the stored numbers and of the valuation *)

Module NumberFacts.

Lemma stored_number x : is_nan x = false -> is_nan (Sql.stored x) = false.
Proof. unfold Sql.stored. destruct (x =? 0); auto. Qed.

Lemma gt0_not_lt0 x : (0 <? x) = true -> (x <? 0) = false.
Proof.
  rewrite !ltb_spec, FloatFacts.Prim2SF_0. unfold SFltb.
  FloatFacts.sf_cases x.
Qed.

End NumberFacts.

Section StoredNumbers.

Context {B : Py.Builtins}.

Let numeric (db : Db) : Prop :=
  Forall (fun r => is_nan (TransactionRow.quantity r) = false /\
                   is_nan (TransactionRow.price_usd r) = false)
         (transactions db) /\
  Forall (fun r => is_nan (PriceRow.price_usd r) = false) (prices db) /\
  Forall (fun h => exists c, HoldingRow.current_price h = Some c /\
                             is_nan c = false)
         (holdings db).

Lemma numeric_exec db c : numeric db -> numeric (exec db c).
Proof.
  intros (Ht & Hp & Hh).
  destruct c as [now s n | now s ty q p fee ex | now s p src].
  - repeat split; auto. simpl.
    destruct (existsb _ (holdings db)); auto.
    apply Forall_app. split; auto. repeat constructor.
    exists 0. split; reflexivity.
  - simpl. destruct (is_nan q || is_nan p) eqn:E.
    + rewrite record_transaction_nan by exact E. repeat split; auto.
    + apply orb_false_iff in E. destruct E as [Hq Hp'].
      rewrite (record_transaction_number _ _ _ _ _ _ _ _ Hq Hp').
      cbv zeta. repeat split; auto.
      * simpl. apply Forall_app. split; auto. repeat constructor; simpl.
        -- now apply NumberFacts.stored_number.
        -- now apply NumberFacts.stored_number.
      * simpl. apply Forall_map. eapply Forall_impl; [|exact Hh].
        intros h Hc. now destruct (Stmt.has_symbol (Py.upper s) h).
  - simpl. unfold update_price, Stmt.insert_price. simpl.
    destruct (is_nan p) eqn:E.
    + rewrite (SqlFacts.real_not_null_nan _ E). repeat split; auto.
    + rewrite (SqlFacts.real_not_null_number _ E). simpl.
      repeat split; auto.
      * apply Forall_app. split; auto. repeat constructor. simpl.
        now apply NumberFacts.stored_number.
      * apply Forall_map. eapply Forall_impl; [|exact Hh].
        intros h Hc. destruct (Stmt.has_symbol (Py.upper s) h); auto.
        simpl. rewrite (SqlFacts.real_number _ E). eexists. split; eauto.
        now apply NumberFacts.stored_number.
Qed.

(** X11.  After any sequence of operations the store holds numbers
    where the engine reads them: the quantity and the price of every
    transaction and the price of every price record are not NaN, and
    the [current_price] of every holding is a number, not NULL. *)
Theorem stored_numbers cs :
  Forall (fun r => is_nan (TransactionRow.quantity r) = false /\
                   is_nan (TransactionRow.price_usd r) = false)
         (transactions (run cs)) /\
  Forall (fun r => is_nan (PriceRow.price_usd r) = false) (prices (run cs)) /\
  Forall (fun h => exists c, HoldingRow.current_price h = Some c /\
                             is_nan c = false)
         (holdings (run cs)).
Proof.
  apply (run_invariant numeric).
  - repeat split; constructor.
  - apply numeric_exec.
Qed.

End StoredNumbers.

Section ValuationEdges.

Context {B : Py.Builtins}.

Lemma mapM_ok_inv {X Y} (f : X -> result Y) xs ys :
  Py.mapM f xs = Ok ys ->
  List.length ys = List.length xs /\
  forall x, In x xs -> exists y, f x = Ok y.
Proof.
  revert ys. induction xs as [|x xs IH]; simpl; intros ys.
  - intros [= <-]. split; [reflexivity|contradiction].
  - destruct (f x) as [y|e] eqn:E; simpl; [|discriminate].
    destruct (Py.mapM f xs) as [ys'|e]; simpl; [|discriminate].
    intros [= <-]. destruct (IH ys' eq_refl) as [Hl Hx]. split.
    + simpl. now rewrite Hl.
    + intros x' [<- | Hin]; eauto.
Qed.

Lemma annotate_ok_cells h p :
  annotate h = Ok p ->
  HoldingRow.current_price h <> None /\ HoldingRow.avg_cost h <> None.
Proof.
  unfold annotate.
  destruct (HoldingRow.total_qty h), (HoldingRow.current_price h),
           (HoldingRow.avg_cost h); simpl; try discriminate.
  intros _. split; discriminate.
Qed.

Lemma annotate_priced h :
  held h = true ->
  HoldingRow.current_price h <> None -> HoldingRow.avg_cost h <> None ->
  exists p, annotate h = Ok p.
Proof.
  unfold held. intros Hh Hc Ha.
  destruct (HoldingRow.total_qty h) as [q|] eqn:Eq; [|discriminate].
  destruct (HoldingRow.current_price h) as [c|] eqn:Ec; [|contradiction].
  destruct (HoldingRow.avg_cost h) as [a|] eqn:Ea; [|contradiction].
  eexists. apply (annotate_number h q c a); assumption.
Qed.

(** X12.  [get_portfolio] returns exactly when every held asset has a
    price and an average cost in the store; when one has a NULL there,
    it raises, and the exception is a TypeError. *)
Theorem get_portfolio_returns_iff_priced db :
  (priced db <-> exists ps, get_portfolio db = Ok ps) /\
  (forall e, get_portfolio db = Raise e -> e = TypeError).
Proof.
  split; [split|].
  - intros Hpriced. unfold get_portfolio.
    destruct (mapM_ok annotate (fun _ _ => True) (Stmt.select_portfolio db))
      as (ps & Eps & _); [|now exists ps].
    rewrite Forall_forall. intros h Hin.
    apply (Permutation_in _ (select_portfolio_perm db)) in Hin.
    apply filter_In in Hin. destruct Hin as [Hin Hheld].
    destruct (Hpriced h Hin Hheld) as [Hc Ha].
    destruct (annotate_priced h Hheld Hc Ha) as [p Ep]. now exists p.
  - intros [ps Eps] h Hin Hheld. unfold get_portfolio in Eps.
    apply mapM_ok_inv in Eps. destruct Eps as [_ Hall].
    destruct (Hall h) as [p Ep].
    + apply (Permutation_in _ (Permutation_sym (select_portfolio_perm db))).
      apply filter_In. now split.
    + now apply annotate_ok_cells in Ep.
  - apply get_portfolio_raise.
Qed.

(** X13.  The portfolio is empty exactly when no stored holding has a
    [total_qty] greater than zero. *)
Theorem get_portfolio_empty_iff db :
  get_portfolio db = Ok [] <->
  forall h, In h (holdings db) -> held h = false.
Proof.
  unfold get_portfolio. split.
  - intros E h Hin. apply mapM_ok_inv in E. destruct E as [Hl _].
    destruct (held h) eqn:Hh; auto.
    assert (Hsel : In h (Stmt.select_portfolio db)).
    { apply (Permutation_in _ (Permutation_sym (select_portfolio_perm db))).
      apply filter_In. now split. }
    destruct (Stmt.select_portfolio db); [contradiction|discriminate].
  - intros H.
    assert (E : filter held (holdings db) = []).
    { induction (holdings db) as [|h l IH]; simpl; auto.
      rewrite (H h (or_introl eq_refl)). apply IH.
      intros h' Hin. apply H. now right. }
    pose proof (select_portfolio_perm db) as Hperm. rewrite E in Hperm.
    apply Permutation_sym, Permutation_nil in Hperm. now rewrite Hperm.
Qed.

Lemma filter_disjoint_length {X} (f g : X -> bool) l :
  (forall x, f x = true -> g x = false) ->
  (List.length (filter f l) + List.length (filter g l) <= List.length l)%nat.
Proof.
  intros H. induction l as [|x l IH]; simpl; auto.
  destruct (f x) eqn:Ef.
  - rewrite (H x Ef). simpl. lia.
  - destruct (g x); simpl; lia.
Qed.

(** X14.  The counts of the summary: [total_positions] is the number of
    holdings with a [total_qty] greater than zero, and no position is
    counted both as winning and as losing:
    [winning_positions + losing_positions <= total_positions]. *)
Theorem calculate_pnl_counts db s :
  calculate_pnl db = Ok s ->
  PnlSummary.total_positions s = List.length (filter held (holdings db)) /\
  (PnlSummary.winning_positions s + PnlSummary.losing_positions s
   <= PnlSummary.total_positions s)%nat.
Proof.
  unfold calculate_pnl. intros E.
  destruct (get_portfolio db) as [ps|e] eqn:Eps.
  - destruct (pnl_figures_ok db ps Eps) as (f & Ef & Hport & _).
    rewrite Ef in E. simpl in E. injection E as <-.
    unfold pnl_figures in Ef. rewrite Eps in Ef. simpl in Ef.
    rewrite guarded_total_percent in Ef. simpl in Ef.
    injection Ef as <-. simpl. split.
    + unfold get_portfolio in Eps. apply mapM_ok_inv in Eps.
      destruct Eps as [-> _].
      apply Permutation_length, select_portfolio_perm.
    + apply filter_disjoint_length. intros p.
      apply NumberFacts.gt0_not_lt0.
  - unfold pnl_figures in E. rewrite Eps in E. discriminate.
Qed.

End ValuationEdges.

(** ** The further properties at the worked ledger *)

(** ETH is not registered in the worked ledger. *)
Lemma unregistered_symbol_accepted_witness :
  (forall tx_type quantity price fee exchange,
     is_nan quantity = false -> is_nan price = false ->
     exists db' tx,
       record_transaction "2024-01-06T09:00:00" "eth" tx_type quantity price
                          fee exchange Scenario.db
       = Ok (db', tx) /\
       holdings db' = holdings Scenario.db /\
       transactions db'
       = transactions Scenario.db
         ++ [recorded_row "2024-01-06T09:00:00" "eth" tx_type quantity price
                          fee exchange Scenario.db]) /\
  (forall price source,
     is_nan price = false ->
     exists db' rec,
       update_price "2024-01-06T09:00:00" "eth" price source Scenario.db
       = Ok (db', rec) /\
       holdings db' = holdings Scenario.db /\
       prices db'
       = prices Scenario.db
         ++ [observed_row "2024-01-06T09:00:00" "eth" price source
                          Scenario.db]).
Proof.
  apply unregistered_symbol_accepted.
  intros h Hin. vm_compute in Hin. destruct Hin as [<- | []].
  vm_compute. discriminate.
Defined.

Lemma record_transaction_frame_witness :
  exists db' tx,
    record_transaction "2024-01-06T09:00:00" "btc" "buy" 0.5 60000 0 "manual"
                       Scenario.db
    = Ok (db', tx) /\
    prices db' = prices Scenario.db /\
    Forall2 (reaggregated "btc") (holdings Scenario.db) (holdings db').
Proof. apply record_transaction_frame; reflexivity. Defined.

Lemma update_price_last_wins_witness :
  holdings (exec (exec Scenario.db
                       (UpdatePrice "2024-01-06T09:00:00" "btc" 66000 "manual"))
                 (UpdatePrice "2024-01-07T09:00:00" "btc" 64000 "feed"))
  = holdings (exec Scenario.db
                   (UpdatePrice "2024-01-07T09:00:00" "btc" 64000 "feed")).
Proof. apply update_price_last_wins. reflexivity. Defined.

(** Two ETH bought and sold on a new database. *)
Lemma buy_then_sell_closes_witness :
  Forall (fun h => HoldingRow.total_qty h = Some 0 /\
                   HoldingRow.avg_cost h = Some 0 /\
                   held h = false)
    (holdings
       (exec (exec (fst (add_holding "2024-01-01T09:00:00" "eth" "Ether"
                                     empty_db))
                   (RecordTransaction "2024-01-02T09:00:00" "eth" "buy"
                                      2 3000 0 "manual"))
             (RecordTransaction "2024-01-03T09:00:00" "eth" "sell"
                                2 3500 0 "manual"))).
Proof.
  apply Forall_forall. intros h Hin.
  apply (buy_then_sell_closes
           "2024-01-02T09:00:00" "eth" 2 3000 0 "manual"
           "2024-01-03T09:00:00" 3500 0 "manual"
           (fst (add_holding "2024-01-01T09:00:00" "eth" "Ether" empty_db)));
    try reflexivity; try exact Hin.
  vm_compute in Hin. destruct Hin as [<- | []]. reflexivity.
Defined.

Lemma calculate_pnl_counts_witness :
  let s := {| PnlSummary.total_market_value := "$97,500.00";
              PnlSummary.total_cost_basis := "$120,000.00";
              PnlSummary.unrealized_pnl := "$-22,500.00";
              PnlSummary.pnl_percentage := "-18.75%";
              PnlSummary.winning_positions := 0;
              PnlSummary.losing_positions := 1;
              PnlSummary.total_positions := 1 |} in
  PnlSummary.total_positions s
  = List.length (filter held (holdings Scenario.db)) /\
  (PnlSummary.winning_positions s + PnlSummary.losing_positions s
   <= PnlSummary.total_positions s)%nat.
Proof.
  apply (calculate_pnl_counts Scenario.db). vm_compute. reflexivity.
Defined.

(** ** The command line *)

Module IoFacts.

Import Cli.

Lemma snd_then {A C} (m : io A) (f : A -> io C) :
  snd (then_ m f)
  = match snd m with
    | Ok a => snd (f a)
    | Raise e => Raise e
    end.
Proof.
  destruct m as [out [a|e]]; simpl; auto. now destruct (f a).
Qed.

Lemma then_lift_ok {A C} (a : A) (f : A -> io C) : then_ (lift (Ok a)) f = f a.
Proof. unfold then_, lift. now destruct (f a). Qed.

Lemma then_lift_raise {A C} e (f : A -> io C) :
  then_ (lift (Raise e)) f = ([], Raise e).
Proof. reflexivity. Qed.

Lemma then_print {C} s (f : unit -> io C) :
  then_ (print s) f = (s :: fst (f tt), snd (f tt)).
Proof. unfold then_, print. now destruct (f tt). Qed.

Lemma then_ok {A C} out (a : A) (f : A -> io C) :
  then_ (out, Ok a) f = (out ++ fst (f a), snd (f a)).
Proof. unfold then_. now destruct (f a). Qed.

(** A loop whose body always prints [n] lines and returns. *)
Lemma for_each_prints {A} (body : A -> io unit) (n : nat) xs :
  (forall x, In x xs ->
     exists out, body x = (out, Ok tt) /\ List.length out = n) ->
  exists out, for_each body xs = (out, Ok tt) /\
              List.length out = (n * List.length xs)%nat.
Proof.
  induction xs as [|x xs IH]; intros H; simpl.
  - exists []. split; auto; simpl; lia.
  - destruct (H x (or_introl eq_refl)) as (o & -> & Ho).
    destruct IH as (os & -> & Hos); [intros; apply H; now right|].
    exists (o ++ os). split; auto. rewrite List.length_app. lia.
Qed.

Lemma append_assoc (a b c : string) :
  ((a ++ b) ++ c)%string = (a ++ b ++ c)%string.
Proof. induction a; simpl; congruence. Qed.

End IoFacts.

Section CommandLine.

Context {B : Py.Builtins} {T : Cli.Text} {F : Py.Files}
        {FT : Py.FloatText}.

Import Cli.

(** One run of the program leaves what its method call leaves. *)
Lemma after_call store r :
  after store r = Some (fold_left exec (call r) (_init_db store)).
Proof.
  destruct r as [now a]. unfold after, main. cbn [fst snd].
  destruct a; rewrite IoFacts.snd_then; cbn [call fold_left exec fst snd].
  - now destruct (snd (cmd_list _)).
  - reflexivity.
  - unfold cmd_buy. rewrite IoFacts.snd_then. cbn [lift snd].
    now destruct (record_transaction _ _ _ _ _ _ _ _) as [[db' tx]|e].
  - unfold cmd_sell. rewrite IoFacts.snd_then. cbn [lift snd].
    now destruct (record_transaction _ _ _ _ _ _ _ _) as [[db' tx]|e].
  - unfold cmd_price. rewrite IoFacts.snd_then. cbn [lift snd].
    now destruct (update_price _ _ _ _ _) as [[db' rec]|e].
  - now destruct (snd (cmd_pnl _)).
  - now destruct (snd (cmd_export _ _ _)) as [file|e].
Qed.

Lemma fold_after runs store :
  _init_db (fold_left after runs store)
  = fold_left exec (flat_map call runs) (_init_db store).
Proof.
  revert store. induction runs as [|r runs IH]; intros store; simpl; auto.
  now rewrite IH, after_call, fold_left_app.
Qed.

(** A session is the run of its method calls. *)
Lemma session_run runs : session runs = run (flat_map call runs).
Proof. apply fold_after. Qed.

Lemma session_app runs r :
  session (runs ++ [r]) = fold_left exec (call r) (session runs).
Proof.
  rewrite !session_run, flat_map_app. simpl. rewrite List.app_nil_r.
  apply run_app.
Qed.

(** The method calls of the command line. *)
Let typed (c : command) : Prop :=
  match c with
  | RecordTransaction _ _ tx_type _ _ _ exchange =>
      (tx_type = "buy" \/ tx_type = "sell") /\ exchange = "manual"
  | _ => True
  end.

Lemma call_typed r : Forall typed (call r).
Proof.
  destruct r as [now []]; unfold call; cbn [fst snd];
    (constructor; [simpl; auto | constructor]) || constructor.
Qed.

Lemma exec_manual db c :
  typed c -> Forall manual_trade (transactions db) ->
  Forall manual_trade (transactions (exec db c)).
Proof.
  intros Hc Hdb.
  destruct c as [now s n | now s ty q p fee ex | now s p src].
  - simpl.
    try match goal with
        | |- context [existsb ?f ?l] => destruct (existsb f l)
        end; exact Hdb.
  - destruct (exec_record_transaction now s ty q p fee ex db)
      as [-> | (tq & ac & ->)]; auto.
    simpl. apply Forall_app. split; [exact Hdb|].
    constructor; [exact Hc | constructor].
  - destruct (exec_update_price now s p src db) as [-> | ->]; auto.
Qed.

Lemma fold_exec_manual cs db :
  Forall typed cs -> Forall manual_trade (transactions db) ->
  Forall manual_trade (transactions (fold_left exec cs db)).
Proof.
  revert db. induction cs as [|c cs IH]; intros db Hcs Hdb; simpl; auto.
  inversion Hcs; subst. apply IH; auto. now apply exec_manual.
Qed.

Lemma session_manual runs : Forall manual_trade (transactions (session runs)).
Proof.
  rewrite session_run. unfold run. apply fold_exec_manual; [|constructor].
  induction runs as [|r runs IH]; simpl; [constructor|].
  apply Forall_app. split; [apply call_typed | exact IH].
Qed.

(** X15.  Through the command line the database of a session is the
    one that the method calls of its runs leave on a new file, [list],
    [pnl] and [export] leaving it as it is; and every transaction in it
    is a ["buy"] or a ["sell"] with the exchange ["manual"]. *)
Theorem cli_session_manual runs :
  session runs = run (flat_map call runs) /\
  Forall manual_trade (transactions (session runs)).
Proof. split; [apply session_run | apply session_manual]. Qed.

Lemma call_trade now buy symbol qty price fee :
  call (now, trade buy symbol qty price fee)
  = [RecordTransaction now symbol (side buy) qty price fee "manual"].
Proof. now destruct buy. Qed.

(** X16.  At the command line the ledger is typed: after a session that
    ends with a [buy] or a [sell] of a quantity and a price that are
    numbers, the new row is appended to the log and every holding of
    the symbol carries the fold over the history of that symbol, the
    rows of the log recorded for it and no other: the clamped net
    quantity and the average cost of the buys. *)
Theorem cli_trade_aggregate runs now buy symbol qty price fee :
  is_nan qty = false -> is_nan price = false ->
  let db := session runs in
  let db' := session (runs ++ [(now, trade buy symbol qty price fee)]) in
  transactions db'
  = transactions db
    ++ [recorded_row now symbol (side buy) qty price fee "manual" db] /\
  forall h, In h (holdings db') ->
    HoldingRow.symbol h = Py.upper symbol ->
    let rows := Ledger.of_symbol (Py.upper symbol) (transactions db') in
    HoldingRow.total_qty h
    = Some (Ledger.clamp (Ledger.total_qty rows)) /\
    HoldingRow.avg_cost h = Sql.real (Ledger.avg_cost rows).
Proof.
  intros Hq Hp. cbv zeta.
  rewrite session_app, call_trade. cbn [fold_left exec].
  destruct (record_transaction_stores now symbol (side buy) qty price fee
              "manual" (session runs) Hq Hp) as (db' & tx & E & Et & Hh).
  rewrite E. split; [exact Et|].
  intros h Hin Hs.
  assert (Hwt : Forall Ledger.well_typed
                  (Ledger.of_symbol (Py.upper symbol) (transactions db'))).
  { apply Forall_forall. intros r Hr. apply of_symbol_in in Hr.
    rewrite Et in Hr. apply List.in_app_or in Hr.
    destruct Hr as [Hr | [<- | []]].
    - pose proof (session_manual runs) as Hm.
      rewrite Forall_forall in Hm. now destruct (Hm r Hr).
    - unfold Ledger.well_typed. simpl. destruct buy; auto. }
  destruct (Hh h Hin Hs) as [Etq Eac].
  destruct (aggregate_cells _ Hwt) as [Ctq Cac].
  now rewrite Etq, Eac, Ctq, Cac.
Qed.

(** X17.  A [buy], a [sell] or a [price] prints its confirmation only
    once the row is written.  When the quantity or the price is NaN the
    run ends with the IntegrityError, prints nothing and leaves the
    database as it was; otherwise it prints one line and the row is
    appended.  The fee is not looked at: with a fee that is NaN the row
    is written all the same, its [fee_usd] NULL. *)
Theorem cli_write_confirmed now store :
  (forall buy symbol qty price fee,
     let a := trade buy symbol qty price fee in
     if is_nan qty || is_nan price
     then main now a store = ([], Raise IntegrityError) /\
          after store (now, a) = Some (_init_db store)
     else exists line db' row,
         main now a store = ([line], Ok (db', [])) /\
         after store (now, a) = Some db' /\
         transactions db' = transactions (_init_db store) ++ [row] /\
         row = recorded_row now symbol (side buy) qty price fee "manual"
                            (_init_db store) /\
         TransactionRow.tx_type row = side buy /\
         TransactionRow.fee_usd row
         = (if is_nan fee then None else Some (Sql.stored fee))) /\
  (forall symbol price source,
     let a := Price symbol price source in
     if is_nan price
     then main now a store = ([], Raise IntegrityError) /\
          after store (now, a) = Some (_init_db store)
     else exists line db',
         main now a store = ([line], Ok (db', [])) /\
         after store (now, a) = Some db' /\
         prices db'
         = prices (_init_db store)
           ++ [observed_row now symbol price source (_init_db store)]).
Proof.
  split.
  - intros buy symbol qty price fee. cbv zeta.
    destruct (is_nan qty || is_nan price) eqn:E.
    + unfold after. cbn [fst snd].
      destruct buy; unfold trade, main, cmd_buy, cmd_sell;
        rewrite record_transaction_nan by exact E; split; reflexivity.
    + apply orb_false_iff in E. destruct E as [Hq Hp].
      unfold after. cbn [fst snd].
      destruct buy; unfold trade, main, cmd_buy, cmd_sell, side;
        rewrite (record_transaction_number _ _ _ _ _ _ _ _ Hq Hp);
        cbv zeta; eexists _, _, _; repeat split.
  - intros symbol price source. cbv zeta. unfold after. cbn [fst snd].
    unfold main, cmd_price, update_price, Stmt.insert_price.
    destruct (is_nan price) eqn:E.
    + cbn [PriceRecord.price_usd PriceRecord.make].
      rewrite (SqlFacts.real_not_null_nan _ E). split; reflexivity.
    + cbn [PriceRecord.price_usd PriceRecord.make].
      rewrite (SqlFacts.real_not_null_number _ E).
      eexists _, _; repeat split.
Qed.

End CommandLine.

Section Queries.

Context {B : Py.Builtins} {T : Cli.Text} {F : Py.Files}
        {FT : Py.FloatText}.

Import Cli.

Lemma header_prints t : exists l1 l2 l3, _header t = ([l1; l2; l3], Ok tt).
Proof. eexists _, _, _. reflexivity. Qed.

Lemma mapM_ok_in {X Y} (f : X -> result Y) xs ys :
  Py.mapM f xs = Ok ys ->
  forall y, In y ys -> exists x, In x xs /\ f x = Ok y.
Proof.
  revert ys. induction xs as [|x xs IH]; simpl; intros ys.
  - intros [= <-] y [].
  - destruct (f x) as [y0|e] eqn:E; simpl; [|discriminate].
    destruct (Py.mapM f xs) as [ys'|e]; simpl; [|discriminate].
    intros [= <-] y [<- | Hin]; [eauto|].
    destruct (IH ys' eq_refl y Hin) as (x' & Hx' & Ex'). eauto.
Qed.

(** A position that [annotate] returned has a number in every cell. *)
Lemma annotate_row h p :
  annotate h = Ok p ->
  exists q c a,
    HoldingRow.total_qty (Position.row p) = Some q /\
    HoldingRow.current_price (Position.row p) = Some c /\
    HoldingRow.avg_cost (Position.row p) = Some a.
Proof.
  destruct (HoldingRow.total_qty h) as [q|] eqn:Eq,
           (HoldingRow.current_price h) as [c|] eqn:Ec,
           (HoldingRow.avg_cost h) as [a|] eqn:Ea;
    try (unfold annotate; rewrite Eq, Ec, Ea; simpl; discriminate).
  rewrite (annotate_number h q c a Eq Ec Ea). intros H.
  apply (f_equal (fun r => match r with
                           | Ok p' => Position.row p'
                           | Raise _ => h
                           end)) in H.
  simpl in H. rewrite <- H. exists q, c, a. auto.
Qed.

Lemma list_entry_prints p :
  (exists q c a,
      HoldingRow.total_qty (Position.row p) = Some q /\
      HoldingRow.current_price (Position.row p) = Some c /\
      HoldingRow.avg_cost (Position.row p) = Some a) ->
  exists out, list_entry p = (out, Ok tt) /\ List.length out = 4%nat.
Proof.
  intros (q & c & a & Eq & Ec & Ea). unfold list_entry.
  rewrite Eq, Ec, Ea. eexists. split; reflexivity.
Qed.

(** [cmd_list] on a portfolio that [get_portfolio] returned. *)
Lemma cmd_list_ok db ps :
  get_portfolio db = Ok ps ->
  exists lines,
    cmd_list db = (lines, Ok tt) /\
    List.length lines
    = match ps with
      | [] => 4%nat
      | _ :: _ => (3 + 4 * List.length ps + 1)%nat
      end /\
    (ps <> [] ->
     last lines ""%string
     = total_line ("$" ++ Py.format (Py.sum (map Position.market_value ps))
                                    ",.2f")).
Proof.
  intros E. unfold cmd_list. rewrite E, IoFacts.then_lift_ok.
  destruct (header_prints "CRYPTO TRACKER — Portfolio")
    as (l1 & l2 & l3 & ->).
  rewrite IoFacts.then_ok.
  destruct ps as [|p ps'].
  - eexists. split; [reflexivity|]. split; [reflexivity|].
    intros H. now elim H.
  - destruct (IoFacts.for_each_prints list_entry 4 (p :: ps'))
      as (out & -> & Hout).
    { intros x Hx. apply list_entry_prints.
      unfold get_portfolio in E.
      destruct (mapM_ok_in _ _ _ E x Hx) as (h & _ & Eh).
      exact (annotate_row _ _ Eh). }
    rewrite IoFacts.then_ok. cbn [fst snd print].
    eexists. split; [reflexivity|]. split.
    + cbn [List.length app]. rewrite List.length_app, Hout.
      cbn [List.length]. lia.
    + intros _. change [l1; l2; l3] with ([l1; l2] ++ [l3]).
      rewrite List.app_assoc, last_last. unfold total_line.
      now rewrite IoFacts.append_assoc.
Qed.

Lemma calculate_pnl_ok db ps :
  get_portfolio db = Ok ps ->
  exists s,
    calculate_pnl db = Ok s /\
    PnlSummary.total_market_value s
    = ("$" ++ Py.format (Py.sum (map Position.market_value ps)) ",.2f")%string.
Proof.
  intros E. unfold calculate_pnl, pnl_figures. rewrite E. simpl.
  rewrite guarded_total_percent. simpl. eexists. split; reflexivity.
Qed.

Lemma calculate_pnl_raise db e :
  get_portfolio db = Raise e -> calculate_pnl db = Raise e.
Proof.
  intros E. unfold calculate_pnl, pnl_figures. now rewrite E.
Qed.

(** The line that [pnl_entry] prints. *)
Let pnl_line (item : string * value) : string :=
  match fst (pnl_entry item) with
  | [l] => l
  | _ => ""%string
  end.

Lemma pnl_entry_print item : pnl_entry item = print (pnl_line item).
Proof. now destruct item. Qed.

Lemma for_each_print {A} (g : A -> string) (body : A -> io unit) xs :
  (forall x, body x = print (g x)) ->
  for_each body xs = (map g xs, Ok tt).
Proof.
  intros H. induction xs as [|x xs IH]; simpl; auto.
  now rewrite H, IoFacts.then_print, IH.
Qed.

Lemma digits_unsigned (c : ascii) u :
  c = "+"%char \/ c = "-"%char ->
  contains c (NilZero.string_of_uint u) = false.
Proof.
  intros Hc.
  assert (H : contains c (DecimalString.NilEmpty.string_of_uint u) = false).
  { induction u; simpl; auto; rewrite IHu, orb_false_r;
      destruct Hc as [-> | ->]; reflexivity. }
  destruct u; simpl in *; auto.
  destruct Hc as [-> | ->]; reflexivity.
Qed.

Lemma pnl_line_count key n : pnl_line (key, Int n) = count_line key n.
Proof.
  unfold pnl_line, pnl_entry, count_line. cbn [fst print str].
  now rewrite !digits_unsigned by auto.
Qed.

(** [cmd_pnl] on a summary that [calculate_pnl] returned. *)
Lemma cmd_pnl_ok db s :
  calculate_pnl db = Ok s ->
  exists l1 l2 l3,
    cmd_pnl db
    = (l1 :: l2 :: l3 :: map pnl_line (items s) ++ [""%string], Ok tt).
Proof.
  intros E. unfold cmd_pnl. rewrite E, IoFacts.then_lift_ok.
  destruct (header_prints "CRYPTO PORTFOLIO — P&L SUMMARY")
    as (l1 & l2 & l3 & ->).
  rewrite IoFacts.then_ok, (for_each_print pnl_line) by apply pnl_entry_print.
  rewrite IoFacts.then_ok. exists l1, l2, l3. reflexivity.
Qed.

(** X18.  [list], [pnl] and [export] stand and fall with
    [get_portfolio] and, for [export], with the file: when
    [get_portfolio] raises, the run ends with its exception before a
    line is printed.  When it returns, [list] and [pnl] print and
    return; [export] writes the one file that it was asked for and
    prints one line when that file can be opened for writing, and
    otherwise ends with the OSError of [open], no line printed and no
    file written.  None of the three changes the database. *)
Theorem cli_queries now a store :
  reads_only a = true ->
  match get_portfolio (_init_db store) with
  | Ok _ =>
      match a with
      | Export_ output =>
          if negb (String.eqb output "") && Py.writable now output
          then exists line doc,
              main now a store
              = ([line], Ok (_init_db store, [(output, doc)]))
          else main now a store = ([], Raise OSError)
      | _ =>
          exists out,
            main now a store = (out, Ok (_init_db store, [])) /\
            out <> []
      end
  | Raise e => main now a store = ([], Raise e)
  end.
Proof.
  intros Ha. unfold main.
  destruct (get_portfolio (_init_db store)) as [ps|e] eqn:E.
  - destruct (calculate_pnl_ok _ _ E) as (s & Es & _).
    destruct a; try discriminate Ha.
    + destruct (cmd_list_ok _ _ E) as (lines & -> & Hlen & _).
      rewrite IoFacts.then_ok. cbn [fst snd lift].
      eexists. split; [reflexivity|].
      rewrite List.app_nil_r. intros ->. now destruct ps.
    + destruct (cmd_pnl_ok _ _ Es) as (l1 & l2 & l3 & ->).
      rewrite IoFacts.then_ok. cbn [fst snd lift].
      eexists. split; [reflexivity|]. discriminate.
    + unfold cmd_export, export_report, report_data, write_text.
      rewrite Es, E. cbn [Py.bind].
      destruct (String.eqb output ""); [reflexivity|].
      destruct (Py.writable now output); [|reflexivity].
      eexists _, _. reflexivity.
  - pose proof (calculate_pnl_raise _ _ E) as Es.
    destruct a; try discriminate Ha.
    + unfold cmd_list. now rewrite E.
    + unfold cmd_pnl. now rewrite Es.
    + unfold cmd_export, export_report, report_data. now rewrite Es.
Qed.

(** X19.  On a portfolio with a position [cmd_list] returns, having
    printed the three lines of the header, four lines for each position
    and the line of the total; and that total is the
    [total_market_value] of [calculate_pnl], which returns on the same
    database. *)
Theorem cmd_list_total db ps :
  get_portfolio db = Ok ps -> ps <> [] ->
  exists lines s,
    cmd_list db = (lines, Ok tt) /\
    List.length lines = (3 + 4 * List.length ps + 1)%nat /\
    calculate_pnl db = Ok s /\
    last lines ""%string = total_line (PnlSummary.total_market_value s).
Proof.
  intros E Hps.
  destruct (cmd_list_ok _ _ E) as (lines & El & Hlen & Hlast).
  destruct (calculate_pnl_ok _ _ E) as (s & Es & Et).
  exists lines, s. rewrite Et. repeat split; auto.
  destruct ps; [now elim Hps | exact Hlen].
Qed.

(** X20.  On a summary that [calculate_pnl] returned [cmd_pnl] returns,
    having printed eleven lines; the three counts of positions are
    among them in cyan, whatever they are, a count having no sign. *)
Theorem cmd_pnl_counts_cyan db s :
  calculate_pnl db = Ok s ->
  exists lines,
    cmd_pnl db = (lines, Ok tt) /\
    List.length lines = 11%nat /\
    In (count_line "winning_positions" (PnlSummary.winning_positions s))
       lines /\
    In (count_line "losing_positions" (PnlSummary.losing_positions s))
       lines /\
    In (count_line "total_positions" (PnlSummary.total_positions s)) lines.
Proof.
  intros E. destruct (cmd_pnl_ok _ _ E) as (l1 & l2 & l3 & ->).
  eexists. split; [reflexivity|]. split; [reflexivity|].
  rewrite <- !pnl_line_count.
  repeat split; do 3 right; apply List.in_or_app; left;
    apply in_map; unfold items; simpl; auto 10.
Qed.

End Queries.

(** ** The command line at the worked ledger

    The statements are on the database, on the files and on the number
    and the fixed text of the lines, which the reference builtins
    determine; they do not depend on how a float is written. *)

(** A second buy of the first asset, typed after both assets were
    registered and bought. *)
Lemma cli_trade_aggregate_witness :
  let runs := [("2024-02-01T09:00:00", Cli.Add "aaa" "Alpha");
               ("2024-02-01T09:01:00", Cli.Add "bbb" "Beta");
               ("2024-02-02T09:00:00", Cli.Buy "aaa" 1 8 0);
               ("2024-02-02T09:01:00", Cli.Buy "bbb" 1000 5 0)] in
  let db := session runs in
  let db' := session (runs ++ [("2024-02-04T09:00:00",
                                trade true "aaa" 1 12 0)]) in
  transactions db'
  = transactions db
    ++ [recorded_row "2024-02-04T09:00:00" "aaa" (side true) 1 12 0
                     "manual" db] /\
  forall h, In h (holdings db') ->
    HoldingRow.symbol h = Py.upper "aaa" ->
    let rows := Ledger.of_symbol (Py.upper "aaa") (transactions db') in
    HoldingRow.total_qty h
    = Some (Ledger.clamp (Ledger.total_qty rows)) /\
    HoldingRow.avg_cost h = Sql.real (Ledger.avg_cost rows).
Proof.
  exact (cli_trade_aggregate
           [("2024-02-01T09:00:00", Cli.Add "aaa" "Alpha");
            ("2024-02-01T09:01:00", Cli.Add "bbb" "Beta");
            ("2024-02-02T09:00:00", Cli.Buy "aaa" 1 8 0);
            ("2024-02-02T09:01:00", Cli.Buy "bbb" 1000 5 0)]
           "2024-02-04T09:00:00" true "aaa" 1 12 0 eq_refl eq_refl).
Defined.

(** [export] on the database of the worked ledger, into the working
    directory. *)
Lemma cli_queries_witness :
  exists line doc,
    main "2024-01-06T09:00:00" (Cli.Export_ "crypto_report.json")
         (Some (session shell))
    = ([line], Ok (session shell, [("crypto_report.json", doc)])).
Proof.
  pose proof (cli_queries "2024-01-06T09:00:00"
                          (Cli.Export_ "crypto_report.json")
                          (Some (session shell)) eq_refl) as H.
  replace (get_portfolio (_init_db (Some (session shell))))
    with (Ok [Scenario.position]) in H by (vm_compute; reflexivity).
  exact H.
Defined.

(** [export] into a directory that is not there, and [list]. *)
Example shell_queries :
  main "2024-01-06T09:00:00" (Cli.Export_ "reports/crypto_report.json")
       (Some (session shell))
  = ([], Raise OSError) /\
  snd (main "2024-01-06T09:00:00" Cli.List_ (Some (session shell)))
  = Ok (session shell, []).
Proof. split; vm_compute; reflexivity. Qed.

Lemma cmd_list_total_witness :
  exists lines s,
    cmd_list Scenario.db = (lines, Ok tt) /\
    List.length lines = (3 + 4 * List.length [Scenario.position] + 1)%nat /\
    calculate_pnl Scenario.db = Ok s /\
    last lines ""%string = total_line (PnlSummary.total_market_value s).
Proof.
  apply (cmd_list_total Scenario.db [Scenario.position]).
  - vm_compute. reflexivity.
  - discriminate.
Defined.

Lemma cmd_pnl_counts_cyan_witness :
  exists lines,
    cmd_pnl Scenario.db = (lines, Ok tt) /\
    List.length lines = 11%nat /\
    In (count_line "winning_positions" 0) lines /\
    In (count_line "losing_positions" 1) lines /\
    In (count_line "total_positions" 1) lines.
Proof.
  apply (cmd_pnl_counts_cyan
           Scenario.db
           {| PnlSummary.total_market_value := "$97,500.00";
              PnlSummary.total_cost_basis := "$120,000.00";
              PnlSummary.unrealized_pnl := "$-22,500.00";
              PnlSummary.pnl_percentage := "-18.75%";
              PnlSummary.winning_positions := 0;
              PnlSummary.losing_positions := 1;
              PnlSummary.total_positions := 1 |}).
  vm_compute. reflexivity.
Defined.
